(** * Github_repoo_creator.py: a shallow embedding and its specification

    The program is a sequential, interactive script: it probes for the
    [gh] command line tool, resolves a credential (helper login or a
    personal access token), asks for a repository name, issues one
    creation call over one of two transports and prints the clone URL.

    Every effect of the script (spawning [gh], reading a line, an HTTPS
    call, the clipboard, printing) is an interaction with the outside
    world.  The world is a record of oracles, the script is written in a
    small state / exception / trace monad, and the properties are stated
    on the trace and the result of a run. *)

From Stdlib Require Import List ZArith NArith String Ascii Bool Lia.
From Stdlib Require Import DecimalString.
Import ListNotations.

Local Open Scope Z_scope.

(* ================================================================== *)
(** ** Python strings *)

Module PyStr.

(** A Python [str] is a sequence of Unicode code points. *)
Definition pystr : Type := list N.

(** ASCII literals. *)
Definition lit (s : string) : pystr :=
  List.map N_of_ascii (list_ascii_of_string s).

(** [a == b] *)
Fixpoint eqb (a b : pystr) : bool :=
  match a, b with
  | [], [] => true
  | x :: a', y :: b' => (x =? y)%N && eqb a' b'
  | _, _ => false
  end.

(** [str.isspace] on one code point: the code points CPython classifies
    as whitespace (U+0009..U+000D, U+001C..U+0020, U+0085, U+00A0,
    U+1680, U+2000..U+200A, U+2028, U+2029, U+202F, U+205F, U+3000). *)
Definition isspace (c : N) : bool :=
  (((9 <=? c) && (c <=? 13)) || ((28 <=? c) && (c <=? 32))
   || (c =? 133) || (c =? 160) || (c =? 5760)
   || ((8192 <=? c) && (c <=? 8202))
   || (c =? 8232) || (c =? 8233) || (c =? 8239) || (c =? 8287)
   || (c =? 12288))%N.

Fixpoint lstrip (s : pystr) : pystr :=
  match s with
  | [] => []
  | c :: s' => if isspace c then lstrip s' else s
  end.

Definition rstrip (s : pystr) : pystr := rev (lstrip (rev s)).

(** [s.strip()] *)
Definition strip (s : pystr) : pystr := rstrip (lstrip s).

(** A string made of whitespace only (the empty string included). *)
Definition blank (s : pystr) : bool := forallb isspace s.

(** [str.upper] on one code point, for U+0000..U+00FF and U+0149, after
    Unicode's UnicodeData and SpecialCasing tables; code points above
    that range are left unchanged here.  No code point outside 'n' and
    'N' has an upper case form equal to "N" in the full tables either
    (U+0149 maps to the two code points U+02BC U+004E). *)
Definition upper_cp (c : N) : list N :=
  (if (97 <=? c) && (c <=? 122) then [c - 32]
   else if c =? 181 then [924]
   else if c =? 223 then [83; 83]
   else if (224 <=? c) && (c <=? 254) && negb (c =? 247) then [c - 32]
   else if c =? 255 then [376]
   else if c =? 329 then [700; 78]
   else [c])%N.

(** [s.upper()] *)
Definition upper (s : pystr) : pystr := flat_map upper_cp s.

(** [str(n)] for an [int]. *)
Definition of_Z (z : Z) : pystr := lit (NilZero.string_of_int (Z.to_int z)).

(** [s.startswith(p)] *)
Fixpoint startswith (s p : pystr) {struct p} : bool :=
  match p, s with
  | [], _ => true
  | c :: p', d :: s' => (c =? d)%N && startswith s' p'
  | _ :: _, [] => false
  end.

(** [needle in s], as a proposition and as the test Python runs. *)
Definition contains (s needle : pystr) : Prop :=
  exists pre post, s = pre ++ needle ++ post.

Fixpoint containsb (s needle : pystr) : bool :=
  startswith s needle
  || match s with
     | [] => false
     | _ :: s' => containsb s' needle
     end.

End PyStr.
Import PyStr.

(* ================================================================== *)
(** ** Python values, exceptions and the outside world *)

(** The dynamically typed values the script handles: [None], booleans,
    integers and strings (the scalar JSON values; the [login] and
    [message] fields of the platform's responses are strings). *)
Inductive pyval : Type :=
| VNone
| VBool (b : bool)
| VInt (z : Z)
| VStr (s : pystr).

(** Truth value of an object, as tested by [if x:] and [not x]. *)
Definition truthy (v : pyval) : bool :=
  match v with
  | VNone => false
  | VBool b => b
  | VInt z => negb (z =? 0)
  | VStr s => negb (eqb s [])
  end.

(** [str(v)], the text an f-string substitutes for [{v}]. *)
Definition py_str (v : pyval) : pystr :=
  match v with
  | VNone => lit "None"
  | VBool true => lit "True"
  | VBool false => lit "False"
  | VInt z => of_Z z
  | VStr s => s
  end.

(** A [dict] with string keys, in insertion order. *)
Definition dict : Type := list (pystr * pyval).

Fixpoint dict_get (d : dict) (k : pystr) : option pyval :=
  match d with
  | [] => None
  | (k', v) :: d' => if eqb k' k then Some v else dict_get d' k
  end.

(** [d[k] = v] *)
Fixpoint dict_set (d : dict) (k : pystr) (v : pyval) : dict :=
  match d with
  | [] => [(k, v)]
  | (k', v') :: d' =>
      if eqb k' k then (k', v) :: d' else (k', v') :: dict_set d' k v
  end.

(** The exception classes the script can meet.  [KeyboardInterrupt] is
    the only one that is not a subclass of [Exception]; [OtherException]
    stands for any other subclass of [Exception] (a [PermissionError],
    pyperclip's own exception, ...). *)
Inductive exn_class : Type :=
| FileNotFoundError
| TimeoutExpired
| CalledProcessError
| RequestException
| ValueError
| KeyError
| TypeError
| AttributeError
| EOFError
| KeyboardInterrupt
| OtherException.

Scheme Equality for exn_class.

Record exn : Type := Exn { exn_cls : exn_class; exn_text : pystr }.

(** [isinstance(e, classes)], the test an [except (C1, C2):] clause makes. *)
Definition isinstance (classes : list exn_class) (e : exn) : bool :=
  existsb (exn_class_beq (exn_cls e)) classes.

(** The test of [except Exception:]. *)
Definition is_Exception (e : exn) : bool :=
  negb (exn_class_beq (exn_cls e) KeyboardInterrupt).

(** The result of an operation that may raise. *)
Inductive res (A : Type) : Type :=
| Ok (a : A)
| Raise (e : exn).
Arguments Ok {A} a.
Arguments Raise {A} e.

(** [subprocess.CompletedProcess] *)
Record CompletedProcess : Type :=
  { returncode : Z; stdout : pystr; stderr : pystr }.

(** The parsed body of an HTTP response: a JSON object, or a JSON value
    of another kind (array, string, number, null). *)
Inductive json : Type :=
| JObject (fields : dict)
| JOther.

(** [requests.Response]: the status code and what [response.json()]
    gives.  A body that is not JSON makes [json()] raise:
    [requests.JSONDecodeError], a subclass of [RequestException], in
    requests 2.27 and later, a plain [ValueError] before. *)
Record Response : Type :=
  { status_code : Z; json_result : res json }.

(** The prompts of the script's calls of [input]. *)
Inductive prompt : Type :=
| PromptGhLogin     (* "是否使用 GitHub CLI 登录? (Y/N, 默认 Y): " *)
| PromptToken       (* "请输入你的 GitHub PAT (或按 Enter 跳过): " *)
| PromptRepoName    (* "请输入仓库名称: " *)
| PromptExit.       (* "按 Enter 键退出..." *)

(** The outside world: what each external call answers.  Every external
    call of the script is made at most once in a run, so an answer per
    request describes a run completely. *)
Record World : Type :=
  { pyperclip_installed : bool;      (* does [import pyperclip] succeed *)
    spawn : list pystr -> res CompletedProcess;     (* [subprocess.run] *)
    console_input : prompt -> res pystr;            (* [input] *)
    http_get : pystr -> dict -> res Response;       (* [requests.get] *)
    http_post : pystr -> dict -> dict -> res Response; (* [requests.post] *)
    clipboard_copy : pystr -> res unit }.           (* [pyperclip.copy] *)

(* ================================================================== *)
(** ** The observable trace of a run *)

(** The lines the script prints, one constructor per [print] statement
    (or per block of consecutive constant ones), with the values it
    interpolates. *)
Inductive msg : Type :=
| MNoPyperclip                 (* "[警告] pyperclip 模块未安装，..." *)
| MGhLoginStart                (* "[提示] 正在启动 GitHub CLI 登录流程..." *)
| MPatHelp                     (* the PAT banner and instructions *)
| MUserInfoFailed (status : Z) (* "[错误] 获取用户信息失败: {status_code}" *)
| MNetworkFailed (e : exn)     (* "[错误] 网络请求失败: {e}" *)
| MBanner                      (* the tool's title banner *)
| MGhInstalled                 (* "[检测] 已安装 GitHub CLI" *)
| MGhLoggedIn                  (* "[检测] GitHub CLI 已登录" *)
| MGhNotLoggedIn               (* "[检测] GitHub CLI 未登录" *)
| MGhLoginFailed               (* "[错误] GitHub CLI 登录失败" *)
| MGhMissing                   (* "[提示] 未检测到 GitHub CLI" and the hint *)
| MNoAuth                      (* "[错误] 未配置任何认证方式" *)
| MTokenInvalid                (* "[错误] Token 验证失败" *)
| MVerified (user : pystr)     (* "[成功] 已验证用户: {self.username}" *)
| MSeparator                   (* a line of dashes *)
| MRepoNameEmpty               (* "[错误] 仓库名称不能为空" *)
| MRepoSummary (name description : pystr) (is_private : bool)
| MCreating                    (* "[信息] 正在创建仓库..." *)
| MCreateFailed (error : pystr) (* "[错误] 仓库创建失败: {error}" *)
| MCreated                     (* "[成功] 仓库创建成功!" *)
| MRepoUrl (repo_url : pystr)  (* "仓库地址: {repo_url}" *)
| MCopied                      (* "[成功] 仓库地址已复制到剪贴板!" *)
| MCopyFailed (e : exn)        (* "[警告] 复制到剪贴板失败: {e}" *)
| MCopyManually                (* "请手动复制上面的地址" *)
| MPleaseCopy                  (* "[提示] 请手动复制上面的地址" *)
| MStartup                     (* start-up lines: version, directory *)
| MDone                        (* "操作完成!" banner *)
| MCancelled                   (* "[提示] 用户取消操作" *)
| MUnexpected (e : exn)        (* "[错误] 发生未预期的错误: {e}" and traceback *)
| MFooter.                     (* the closing line of equal signs *)

(** The bracketed tag a printed line starts with. *)
Inductive level : Type :=
| LError | LWarning | LHint | LDetect | LInfo | LSuccess | LPlain.

Definition level_of (m : msg) : level :=
  match m with
  | MUserInfoFailed _ | MNetworkFailed _ | MGhLoginFailed | MNoAuth
  | MTokenInvalid | MRepoNameEmpty | MCreateFailed _ | MUnexpected _ => LError
  | MNoPyperclip | MCopyFailed _ => LWarning
  | MGhLoginStart | MGhMissing | MPleaseCopy | MCancelled => LHint
  | MGhInstalled | MGhLoggedIn | MGhNotLoggedIn => LDetect
  | MCreating => LInfo
  | MVerified _ | MCreated | MCopied => LSuccess
  | _ => LPlain
  end.

(** One interaction with the outside world: the request as the script
    made it and the answer it got. *)
Inductive event : Type :=
| ERun (argv : list pystr) (timeout : option Z) (o : res CompletedProcess)
| EInput (p : prompt) (o : res pystr)
| EGet (url : pystr) (headers : dict) (timeout : Z) (o : res Response)
| EPost (url : pystr) (headers : dict) (body : dict) (timeout : Z)
        (o : res Response)
| ECopy (text : pystr) (o : res unit)
| EPrint (m : msg).

Definition trace : Type := list event.

(* ================================================================== *)
(** ** The monad of the script *)

(** The attributes of a [GitHubRepoCreator] object. *)
Record Session : Type :=
  { use_gh_cli : bool; token : pyval; username : pyval }.

(** A computation reads and updates the object, appends to the trace and
    returns or raises. *)
Definition M (A : Type) : Type := Session -> trace * Session * res A.

Definition ret {A} (a : A) : M A := fun s => ([], s, Ok a).

Definition raise_ {A} (e : exn) : M A := fun s => ([], s, Raise e).

Definition bind {A B} (m : M A) (k : A -> M B) : M B :=
  fun s =>
    match m s with
    | (t, s', Ok a) => match k a s' with (t', s'', r) => (t ++ t', s'', r) end
    | (t, s', Raise e) => (t, s', Raise e)
    end.

Declare Scope py_scope.
Delimit Scope py_scope with py.
Notation "x <- m ;; k" := (bind m (fun x => k))
  (at level 61, m at next level, right associativity) : py_scope.
Notation "m ;; k" := (bind m (fun _ => k))
  (at level 61, right associativity) : py_scope.
Local Open Scope py_scope.

(** An [except] clause: which exceptions it catches, and its handler. *)
Definition clause (A : Type) : Type := (exn -> bool) * (exn -> M A).

(** The first clause that catches [e], as Python tries them in order. *)
Fixpoint find_clause {A} (clauses : list (clause A)) (e : exn)
  : option (exn -> M A) :=
  match clauses with
  | [] => None
  | (catches, handler) :: rest =>
      if catches e then Some handler else find_clause rest e
  end.

(** [try: body / except ...: handler / except ...: handler] *)
Definition try_except {A} (body : M A) (clauses : list (clause A)) : M A :=
  fun s =>
    match body s with
    | (t, s', Ok a) => (t, s', Ok a)
    | (t, s', Raise e) =>
        match find_clause clauses e with
        | Some h => match h e s' with (t', s'', r) => (t ++ t', s'', r) end
        | None => (t, s', Raise e)
        end
    end.

(** [except (C1, C2) as e: handler] and [except Exception as e: handler] *)
Definition except {A} (classes : list exn_class) (handler : exn -> M A)
  : clause A := (isinstance classes, handler).
Definition except_Exception {A} (handler : exn -> M A) : clause A :=
  (is_Exception, handler).

(** [try: body / finally: final] *)
Definition try_finally {A} (body : M A) (final : M unit) : M A :=
  fun s =>
    match body s with
    | (t, s', r) =>
        match final s' with
        | (t', s'', Ok _) => (t ++ t', s'', r)
        | (t', s'', Raise e) => (t ++ t', s'', Raise e)
        end
    end.

Definition self : M Session := fun s => ([], s, Ok s).
Definition set_use_gh_cli (b : bool) : M unit :=
  fun s => ([], {| use_gh_cli := b; token := token s;
                   username := username s |}, Ok tt).
Definition set_token (v : pyval) : M unit :=
  fun s => ([], {| use_gh_cli := use_gh_cli s; token := v;
                   username := username s |}, Ok tt).
Definition set_username (v : pyval) : M unit :=
  fun s => ([], {| use_gh_cli := use_gh_cli s; token := token s;
                   username := v |}, Ok tt).

Definition emit (e : event) : M unit := fun s => ([e], s, Ok tt).
Definition print (m : msg) : M unit := emit (EPrint m).
Definition lift {A} (o : res A) : M A := fun s => ([], s, o).

(* ================================================================== *)
(** ** The script *)

Record RepoInfo : Type :=
  { name : pystr; description : pystr; is_private : bool }.

Definition api_headers (token : pyval) : dict :=
  [ (lit "Authorization", VStr (lit "token " ++ py_str token));
    (lit "Accept", VStr (lit "application/vnd.github.v3+json")) ].

Definition url_user : pystr := lit "https://api.github.com/user".
Definition url_user_repos : pystr := lit "https://api.github.com/user/repos".

Definition cmd_gh_version : list pystr := [lit "gh"; lit "--version"].
Definition cmd_gh_auth_status : list pystr := [lit "gh"; lit "auth"; lit "status"].
Definition cmd_gh_auth_login : list pystr := [lit "gh"; lit "auth"; lit "login"].
Definition cmd_gh_api_user : list pystr :=
  [lit "gh"; lit "api"; lit "user"; lit "--jq"; lit ".login"].

(** "创建失败 (", "未知错误", "网络请求失败: ", "命令执行超时" *)
Definition txt_create_failed : pystr := [21019; 24314; 22833; 36133; 32; 40]%N.
Definition txt_unknown_error : pystr := [26410; 30693; 38169; 35823]%N.
Definition txt_network_failed : pystr :=
  [32593; 32476; 35831; 27714; 22833; 36133; 58; 32]%N.
Definition txt_timed_out : pystr := [21629; 20196; 25191; 34892; 36229; 26102]%N.

Section Script.

Variable w : World.

(** *** The external calls *)

(** [subprocess.run(argv, timeout=..., check=...)] *)
Definition subprocess_run (argv : list pystr) (timeout : option Z)
    (check : bool) : M CompletedProcess :=
  let o := spawn w argv in
  emit (ERun argv timeout o) ;;
  match o with
  | Ok r =>
      if check && negb (returncode r =? 0)
      then raise_ (Exn CalledProcessError [])
      else ret r
  | Raise e => raise_ e
  end.

Definition input (p : prompt) : M pystr :=
  let o := console_input w p in
  emit (EInput p o) ;; lift o.

Definition requests_get (url : pystr) (headers : dict) (timeout : Z)
  : M Response :=
  let o := http_get w url headers in
  emit (EGet url headers timeout o) ;; lift o.

Definition requests_post (url : pystr) (headers data : dict) (timeout : Z)
  : M Response :=
  let o := http_post w url headers data in
  emit (EPost url headers data timeout o) ;; lift o.

Definition pyperclip_copy (text : pystr) : M unit :=
  let o := clipboard_copy w text in
  emit (ECopy text o) ;; lift o.

(** [response.json()['login']] *)
Definition json_index (r : Response) (k : pystr) : M pyval :=
  j <- lift (json_result r) ;;
  match j with
  | JObject d =>
      match dict_get d k with
      | Some v => ret v
      | None => raise_ (Exn KeyError k)
      end
  | JOther => raise_ (Exn TypeError [])
  end.

(** [response.json().get('message', default)] *)
Definition json_get (r : Response) (k : pystr) (default : pyval) : M pyval :=
  j <- lift (json_result r) ;;
  match j with
  | JObject d =>
      match dict_get d k with
      | Some v => ret v
      | None => ret default
      end
  | JOther => raise_ (Exn AttributeError [])
  end.

(** *** class GitHubRepoCreator *)

Definition check_gh_cli : M bool :=
  try_except
    (result <- subprocess_run cmd_gh_version (Some 5) false ;;
     ret (returncode result =? 0))
    [except [FileNotFoundError; TimeoutExpired] (fun e => ret false)].

Definition __init__ : M unit :=
  b <- check_gh_cli ;;
  set_use_gh_cli b ;;
  set_token VNone ;;
  set_username VNone.

Definition check_gh_auth : M bool :=
  try_except
    (result <- subprocess_run cmd_gh_auth_status (Some 5) false ;;
     ret (returncode result =? 0))
    [except [TimeoutExpired] (fun e => ret false)].

Definition gh_login : M bool :=
  print MGhLoginStart ;;
  try_except
    (subprocess_run cmd_gh_auth_login None true ;;
     ret true)
    [except [CalledProcessError] (fun e => ret false)].

Definition get_token_from_input : M pyval :=
  print MPatHelp ;;
  line <- input PromptToken ;;
  let token := strip line in
  ret (if negb (eqb token []) then VStr token else VNone).

Definition get_username_from_token (token : pyval) : M pyval :=
  let headers := api_headers token in
  try_except
    (response <- requests_get url_user headers 10 ;;
     if status_code response =? 200 then
       json_index response (lit "login")
     else
       print (MUserInfoFailed (status_code response)) ;;
       ret VNone)
    [except [RequestException]
       (fun e => print (MNetworkFailed e) ;; ret VNone)].

Definition get_username_from_gh : M pyval :=
  try_except
    (result <- subprocess_run cmd_gh_api_user (Some 10) false ;;
     if returncode result =? 0 then ret (VStr (strip (stdout result)))
     else ret VNone)
    [except [TimeoutExpired] (fun e => ret VNone)].

Definition cmd_gh_repo_create (repo_name description : pystr)
    (is_private : bool) : list pystr :=
  [lit "gh"; lit "repo"; lit "create"; repo_name]
  ++ [if is_private then lit "--private" else lit "--public"]
  ++ (if negb (eqb description []) then [lit "--description"; description]
      else []).

Definition create_repo_with_gh (repo_name description : pystr)
    (is_private : bool) : M (bool * pyval) :=
  let cmd := cmd_gh_repo_create repo_name description is_private in
  try_except
    (result <- subprocess_run cmd (Some 30) false ;;
     ret (returncode result =? 0, VStr (stderr result)))
    [except [TimeoutExpired] (fun e => ret (false, VStr txt_timed_out))].

Definition repo_data (repo_name description : pystr) (is_private : bool)
  : dict :=
  let data := [ (lit "name", VStr repo_name);
                (lit "private", VBool is_private);
                (lit "auto_init", VBool false) ] in
  if negb (eqb description [])
  then dict_set data (lit "description") (VStr description)
  else data.

Definition create_repo_with_api (token : pyval) (repo_name description : pystr)
    (is_private : bool) : M (bool * pyval) :=
  let headers := api_headers token in
  let data := repo_data repo_name description is_private in
  try_except
    (response <- requests_post url_user_repos headers data 30 ;;
     if status_code response =? 201 then
       ret (true, VNone)
     else
       error_msg <- json_get response (lit "message") (VStr txt_unknown_error) ;;
       ret (false,
            VStr (txt_create_failed ++ of_Z (status_code response)
                  ++ lit "): " ++ py_str error_msg)))
    [except [RequestException]
       (fun e => ret (false, VStr (txt_network_failed ++ exn_text e)))].

(** The tail of [setup_auth] from the comment "使用 PAT" on: every path
    of the helper branch that does not [return True] falls through to
    it. *)
Definition setup_auth_pat : M bool :=
  tok <- get_token_from_input ;;
  set_token tok ;;
  if negb (truthy tok) then
    print MNoAuth ;;
    ret false
  else
    user <- get_username_from_token tok ;;
    set_username user ;;
    if negb (truthy user) then
      print MTokenInvalid ;;
      ret false
    else
      print (MVerified (py_str user)) ;;
      ret true.

Definition setup_auth : M bool :=
  print MBanner ;;
  this <- self ;;
  if use_gh_cli this then
    print MGhInstalled ;;
    authed <- check_gh_auth ;;
    if authed then
      print MGhLoggedIn ;;
      user <- get_username_from_gh ;;
      set_username user ;;
      ret true
    else
      print MGhNotLoggedIn ;;
      line <- input PromptGhLogin ;;
      let choice := upper (strip line) in
      if negb (eqb choice (lit "N")) then
        logged_in <- gh_login ;;
        if logged_in then
          user <- get_username_from_gh ;;
          set_username user ;;
          ret true
        else
          print MGhLoginFailed ;;
          setup_auth_pat
      else
        setup_auth_pat
  else
    print MGhMissing ;;
    setup_auth_pat.

Definition get_repo_info : M (option RepoInfo) :=
  print MSeparator ;;
  line <- input PromptRepoName ;;
  let repo_name := strip line in
  if eqb repo_name [] then
    print MRepoNameEmpty ;;
    ret None
  else
    let description := lit "1.0" in
    let is_private := false in
    ret (Some {| name := repo_name;
                 description := description;
                 is_private := is_private |}).

(** [https://github.com/{self.username}/{repo_info['name']}.git] *)
Definition clone_url (username : pyval) (repo_name : pystr) : pystr :=
  lit "https://github.com/" ++ py_str username ++ lit "/" ++ repo_name
  ++ lit ".git".

(** The part of [create_repository] after both guards: the transport,
    the clone URL and the clipboard. *)
Definition create_and_report (repo_info : RepoInfo) : M bool :=
  print (MRepoSummary (name repo_info) (description repo_info)
           (is_private repo_info)) ;;
  print MCreating ;;
  this <- self ;;
  outcome <-
    (if use_gh_cli this && negb (truthy (token this)) then
       create_repo_with_gh (name repo_info) (description repo_info)
         (is_private repo_info)
     else
       create_repo_with_api (token this) (name repo_info)
         (description repo_info) (is_private repo_info)) ;;
  let '(success, error) := outcome in
  if negb success then
    print (MCreateFailed (py_str error)) ;;
    ret false
  else
    this <- self ;;
    let repo_url := clone_url (username this) (name repo_info) in
    print MCreated ;;
    print (MRepoUrl repo_url) ;;
    (if pyperclip_installed w then
       try_except
         (pyperclip_copy repo_url ;;
          print MCopied)
         [except_Exception
            (fun e => print (MCopyFailed e) ;; print MCopyManually)]
     else
       print MPleaseCopy) ;;
    ret true.

Definition create_repository : M bool :=
  authed <- setup_auth ;;
  if negb authed then ret false
  else
    repo_info <- get_repo_info ;;
    match repo_info with
    | None => ret false
    | Some repo_info => create_and_report repo_info
    end.

(** *** The module and [main] *)

(** [creator = GitHubRepoCreator(); success = creator.create_repository()] *)
Definition create : M bool :=
  __init__ ;;
  create_repository.

(** The module's import of pyperclip, then [main()].  The console code
    page set-up on win32 has no effect on what follows and is left out. *)
Definition main : M unit :=
  (if pyperclip_installed w then ret tt else print MNoPyperclip) ;;
  try_finally
    (try_except
       (print MStartup ;;
        success <- create ;;
        if success then print MDone else ret tt)
       [ except [KeyboardInterrupt] (fun _ => print MCancelled);
         except_Exception (fun e => print (MUnexpected e)) ])
    (print MFooter ;;
     input PromptExit ;;
     ret tt).

End Script.

(** A fresh object, before [__init__] has run. *)
Definition blank_session : Session :=
  {| use_gh_cli := false; token := VNone; username := VNone |}.

(** A run of the script against a world: its trace, the object at the
    end and what [creator.create_repository()] returned. *)
Definition run (w : World) : trace * Session * res bool :=
  create w blank_session.

Definition run_trace (w : World) : trace := fst (fst (run w)).
Definition run_session (w : World) : Session := snd (fst (run w)).
Definition run_result (w : World) : res bool := snd (run w).

(** The script up to the end of credential resolution: the constructor,
    then [setup_auth]. *)
Definition resolve (w : World) : trace * Session * res bool :=
  (__init__ w ;; setup_auth w) blank_session.

Definition resolve_trace (w : World) : trace := fst (fst (resolve w)).
Definition resolve_session (w : World) : Session := snd (fst (resolve w)).
Definition resolve_result (w : World) : res bool := snd (resolve w).

(** What the whole program prints and asks, module import included. *)
Definition main_trace (w : World) : trace := fst (fst (main w blank_session)).

(* ================================================================== *)
(** ** Vocabulary of the specification *)

(** The events and the result of a computation started on a fresh
    object. *)
Definition events_of {A} (m : M A) : trace := fst (fst (m blank_session)).
Definition result_of {A} (m : M A) : res A := snd (m blank_session).

(** A computation that neither reads nor writes the object's
    attributes: every method but [__init__], [setup_auth] and
    [create_repository]. *)
Definition static {A} (m : M A) : Prop :=
  forall s, m s = (events_of m, s, result_of m).

(** The presence probe says the helper is missing: [check_gh_cli]
    returns [False]. *)
Definition helper_absent (w : World) : Prop :=
  result_of (check_gh_cli w) = Ok false.

(** A run reaches the Repository Creator: [setup_auth] returned [True]
    and [get_repo_info] returned a repository request. *)
Definition reaches_creation (w : World) : bool :=
  match resolve w with
  | (_, s, Ok true) =>
      match get_repo_info w s with
      | (_, _, Ok (Some _)) => true
      | _ => false
      end
  | _ => false
  end.

(** Equality of command lines. *)
Fixpoint argv_eqb (a b : list pystr) : bool :=
  match a, b with
  | [], [] => true
  | x :: a', y :: b' => eqb x y && argv_eqb a' b'
  | _, _ => false
  end.

(** Any invocation of the helper: [gh ...]. *)
Definition is_helper_call (e : event) : bool :=
  match e with
  | ERun (g :: _) _ _ => eqb g (lit "gh")
  | _ => false
  end.

(** The helper-CLI creation transport: [gh repo create ...]. *)
Definition is_gh_create (e : event) : bool :=
  match e with
  | ERun (g :: r :: c :: _) _ _ =>
      eqb g (lit "gh") && eqb r (lit "repo") && eqb c (lit "create")
  | _ => false
  end.

(** The direct API creation transport: [POST /user/repos]. *)
Definition is_api_create (e : event) : bool :=
  match e with
  | EPost url _ _ _ _ => eqb url url_user_repos
  | _ => false
  end.

Definition is_creation_call (e : event) : bool :=
  is_gh_create e || is_api_create e.

(** A creation call that reported success: exit status zero for the
    helper, HTTP 201 for the API. *)
Definition successful_create (e : event) : bool :=
  match e with
  | ERun _ _ o =>
      is_gh_create e
      && match o with
         | Ok r => returncode r =? 0
         | Raise _ => false
         end
  | EPost _ _ _ _ o =>
      is_api_create e
      && match o with
         | Ok r => status_code r =? 201
         | Raise _ => false
         end
  | _ => false
  end.

Definition creation_succeeds (w : World) : Prop :=
  existsb successful_create (run_trace w) = true.

(** An interaction that reaches outside the machine's own console and
    clipboard: a subprocess or an HTTPS call. *)
Definition is_remote_call (e : event) : bool :=
  match e with
  | ERun _ _ _ | EGet _ _ _ _ | EPost _ _ _ _ _ => true
  | _ => false
  end.

(** The helper reported an authenticated session: [gh auth status] or
    [gh auth login] exited with status zero. *)
Definition is_auth_success (e : event) : bool :=
  match e with
  | ERun argv _ o =>
      (argv_eqb argv cmd_gh_auth_status || argv_eqb argv cmd_gh_auth_login)
      && match o with
         | Ok r => returncode r =? 0
         | Raise _ => false
         end
  | _ => false
  end.

Definition helper_authenticated (t : trace) : bool :=
  existsb is_auth_success t.

(** The lines of a trace that carry the error tag. *)
Definition printed_errors (t : trace) : list msg :=
  flat_map
    (fun e => match e with
              | EPrint m =>
                  match level_of m with
                  | LError => [m]
                  | _ => []
                  end
              | _ => []
              end) t.

(** What [main()] returns or raises. *)
Definition main_result (w : World) : res unit := snd (main w blank_session).

(** An HTTPS call. *)
Definition is_http_call (e : event) : bool :=
  match e with
  | EGet _ _ _ _ | EPost _ _ _ _ _ => true
  | _ => false
  end.

(** The creation calls of a trace, on either transport. *)
Definition creation_calls (t : trace) : list event :=
  filter is_creation_call t.

(** The external calls the script is written to make: a [gh] command
    with a timeout of at most 30 seconds, or the interactive
    [gh auth login] without one; a GET of /user with a timeout of 10
    seconds; a POST to /user/repos with a timeout of 30 seconds. *)
Definition expected_call (e : event) : bool :=
  match e with
  | ERun argv timeout _ =>
      is_helper_call e
      && match timeout with
         | None => argv_eqb argv cmd_gh_auth_login
         | Some seconds =>
             (0 <? seconds) && (seconds <=? 30)
             && negb (argv_eqb argv cmd_gh_auth_login)
         end
  | EGet url _ timeout _ => eqb url url_user && (timeout =? 10)
  | EPost url _ _ timeout _ => eqb url url_user_repos && (timeout =? 30)
  | _ => true
  end.

(* ================================================================== *)
(** ** Concrete worlds *)

Module Worlds.

Definition exited (rc : Z) (out err : string) : res CompletedProcess :=
  Ok {| returncode := rc; stdout := lit out; stderr := lit err |}.

Definition responded (status : Z) (fields : dict) : res Response :=
  Ok {| status_code := status; json_result := Ok (JObject fields) |}.

Definition offline {A} : res A :=
  Raise (Exn RequestException (lit "Connection refused")).

(** No [gh] on the PATH. *)
Definition no_gh (argv : list pystr) : res CompletedProcess :=
  Raise (Exn FileNotFoundError (lit "No such file or directory: gh")).

(** The helper is installed and logged in, but [gh api user] fails. *)
Definition helper_without_username : World :=
  {| pyperclip_installed := true;
     spawn := fun argv =>
       if argv_eqb argv cmd_gh_api_user
       then exited 1 "" "error connecting to api.github.com"
       else exited 0 "" "";
     console_input := fun p =>
       match p with
       | PromptRepoName => Ok (lit "demo")
       | _ => Ok []
       end;
     http_get := fun _ _ => offline;
     http_post := fun _ _ _ => offline;
     clipboard_copy := fun _ => Ok tt |}.

(** The helper is installed and logged in as bob; the user answers the
    repository name prompt with spaces only. *)
Definition helper_blank_name : World :=
  {| pyperclip_installed := true;
     spawn := fun argv =>
       if argv_eqb argv cmd_gh_api_user then exited 0 "bob" ""
       else exited 0 "" "";
     console_input := fun p =>
       match p with
       | PromptRepoName => Ok (lit "   ")
       | _ => Ok []
       end;
     http_get := fun _ _ => offline;
     http_post := fun _ _ _ => offline;
     clipboard_copy := fun _ => Ok tt |}.

(** No helper; token "abc123" belongs to alice; repository "demo"; the
    creation call is answered by [created]; the clipboard by [clip]. *)
Definition alice (created : res Response) (clipboard : bool)
    (clip : res unit) : World :=
  {| pyperclip_installed := clipboard;
     spawn := no_gh;
     console_input := fun p =>
       match p with
       | PromptToken => Ok (lit "abc123")
       | PromptRepoName => Ok (lit "demo")
       | _ => Ok []
       end;
     http_get := fun _ _ => responded 200 [(lit "login", VStr (lit "alice"))];
     http_post := fun _ _ _ => created;
     clipboard_copy := fun _ => clip |}.

(** A gateway in front of the API answers 502 with an HTML page:
    [response.json()] raises requests' [JSONDecodeError]. *)
Definition bad_gateway : res Response :=
  Ok {| status_code := 502;
        json_result :=
          Raise (Exn RequestException
                   (lit "Expecting value: line 1 column 1 (char 0)")) |}.

(** The helper is installed, not logged in; the user answers [answer]
    at the login prompt; [gh auth login] succeeds and the helper then
    knows the user as carol. *)
Definition login_prompt (answer : string) : World :=
  {| pyperclip_installed := true;
     spawn := fun argv =>
       if argv_eqb argv cmd_gh_auth_status then exited 1 "" "not logged in"
       else if argv_eqb argv cmd_gh_api_user then exited 0 "carol" ""
       else exited 0 "" "";
     console_input := fun p =>
       match p with
       | PromptGhLogin => Ok (lit answer)
       | PromptToken => Ok (lit "abc123")
       | PromptRepoName => Ok (lit "demo")
       | PromptExit => Ok []
       end;
     http_get := fun _ _ => responded 200 [(lit "login", VStr (lit "alice"))];
     http_post := fun _ _ _ => responded 201 [];
     clipboard_copy := fun _ => Ok tt |}.

Definition alice_bad_gateway : World := alice bad_gateway true (Ok tt).

(** The creation call answers 201 and the clipboard works. *)
Definition alice_created : World := alice (responded 201 []) true (Ok tt).

(** The creation call answers 201; pyperclip is not installed. *)
Definition alice_no_clipboard : World :=
  alice (responded 201 []) false (Ok tt).

(** The creation call answers 201; [pyperclip.copy] raises. *)
Definition alice_clipboard_broken : World :=
  alice (responded 201 []) true
    (Raise (Exn OtherException (lit "could not find a copy/paste mechanism"))).

(** No helper, and the user presses Enter at the token prompt. *)
Definition no_token : World :=
  {| pyperclip_installed := true;
     spawn := no_gh;
     console_input := fun _ => Ok [];
     http_get := fun _ _ => offline;
     http_post := fun _ _ _ => offline;
     clipboard_copy := fun _ => Ok tt |}.

(** No helper, and the user interrupts the token prompt. *)
Definition interrupted : World :=
  {| pyperclip_installed := true;
     spawn := no_gh;
     console_input := fun p =>
       match p with
       | PromptToken => Raise (Exn KeyboardInterrupt [])
       | _ => Ok []
       end;
     http_get := fun _ _ => offline;
     http_post := fun _ _ _ => offline;
     clipboard_copy := fun _ => Ok tt |}.

(** The helper is installed, not logged in; the user accepts the login,
    [gh auth login] exits with status 1; the token "abc123" of alice is
    then entered. *)
Definition login_fails : World :=
  {| pyperclip_installed := true;
     spawn := fun argv =>
       if argv_eqb argv cmd_gh_version then exited 0 "gh version 2.40.1" ""
       else exited 1 "" "authentication failed";
     console_input := fun p =>
       match p with
       | PromptToken => Ok (lit "abc123")
       | PromptRepoName => Ok (lit "demo")
       | _ => Ok []
       end;
     http_get := fun _ _ => responded 200 [(lit "login", VStr (lit "alice"))];
     http_post := fun _ _ _ => responded 201 [];
     clipboard_copy := fun _ => Ok tt |}.

(** The helper is installed and logged in as bob; repository "proj";
    [gh repo create] is answered by [created]. *)
Definition bob (created : res CompletedProcess) : World :=
  {| pyperclip_installed := true;
     spawn := fun argv =>
       if argv_eqb argv cmd_gh_version then exited 0 "gh version 2.40.1" ""
       else if argv_eqb argv cmd_gh_auth_status then exited 0 "" ""
       else if argv_eqb argv cmd_gh_api_user then exited 0 "bob" ""
       else created;
     console_input := fun p =>
       match p with
       | PromptRepoName => Ok (lit " proj ")
       | _ => Ok []
       end;
     http_get := fun _ _ => offline;
     http_post := fun _ _ _ => offline;
     clipboard_copy := fun _ => Ok tt |}.

Definition bob_created : World := bob (exited 0 "" "").

Definition bob_name_taken : World :=
  bob (exited 1 "" "GraphQL: Name already exists on this account").

Definition bob_timeout : World :=
  bob (Raise (Exn TimeoutExpired (lit "timed out after 30 seconds"))).

(** The platform refuses the creation with status 422 and a message. *)
Definition alice_rejected : World :=
  alice (responded 422 [(lit "message", VStr (lit "Repository creation failed."))])
    true (Ok tt).

End Worlds.

(* ================================================================== *)
(** * Properties *)

(** ** Strings *)

Section Strings.

Lemma eqb_eq (a b : pystr) : eqb a b = true <-> a = b.
Proof.
  revert b. induction a as [|x a IH]; intros [|y b]; simpl;
    try (split; [discriminate | congruence]); [tauto|].
  rewrite andb_true_iff, N.eqb_eq, IH. split.
  - intros [-> ->]. reflexivity.
  - intros [= -> ->]. auto.
Qed.

Lemma eqb_refl (a : pystr) : eqb a a = true.
Proof. apply eqb_eq. reflexivity. Qed.

Lemma eqb_neq (a b : pystr) : eqb a b = false <-> a <> b.
Proof.
  rewrite <- eqb_eq. destruct (eqb a b); split; congruence.
Qed.

Lemma lstrip_nil_blank (s : pystr) : lstrip s = [] <-> blank s = true.
Proof.
  induction s as [|c s IH]; simpl; [tauto|].
  destruct (isspace c); simpl; [exact IH|].
  split; discriminate.
Qed.

Lemma lstrip_head (s : pystr) c s' :
  lstrip s = c :: s' -> isspace c = false.
Proof.
  induction s as [|d s IH]; simpl; [discriminate|].
  destruct (isspace d) eqn:E; [exact IH|].
  intros [= <- _]. exact E.
Qed.

Lemma blank_rev (s : pystr) : blank (rev s) = blank s.
Proof.
  unfold blank. induction s as [|c s IH]; simpl; [reflexivity|].
  rewrite forallb_app, IH. simpl. rewrite andb_true_r. apply andb_comm.
Qed.

Lemma blank_lstrip (s : pystr) : blank (lstrip s) = true -> lstrip s = [].
Proof.
  destruct (lstrip s) as [|c s'] eqn:E; [reflexivity|].
  apply lstrip_head in E. simpl. rewrite E. discriminate.
Qed.

(** The repository-name and token guards: a line strips to the empty
    string exactly when it is made of whitespace only. *)
Lemma strip_nil_blank (s : pystr) : strip s = [] <-> blank s = true.
Proof.
  unfold strip, rstrip. split.
  - intros H. apply lstrip_nil_blank, blank_lstrip.
    rewrite <- blank_rev. apply lstrip_nil_blank.
    apply (f_equal (@rev N)) in H. rewrite rev_involutive in H. exact H.
  - intros H. apply lstrip_nil_blank in H. rewrite H. reflexivity.
Qed.

Lemma upper_cp_nonempty (c : N) : upper_cp c <> [].
Proof.
  unfold upper_cp.
  repeat match goal with
         | |- context [if ?b then _ else _] => destruct b
         end; discriminate.
Qed.

Lemma upper_cp_N (c : N) :
  upper_cp c = [78%N] <-> c = 78%N \/ c = 110%N.
Proof.
  split.
  - unfold upper_cp.
    repeat match goal with
           | |- context [if ?b then _ else _] => destruct b eqn:?
           end; intros [= H]; try discriminate;
      repeat match goal with
             | E : (_ && _) = true |- _ => apply andb_true_iff in E; destruct E
             | E : (_ && _) = false |- _ => apply andb_false_iff in E
             | E : negb _ = true |- _ => apply negb_true_iff in E
             | E : negb _ = false |- _ => apply negb_false_iff in E
             | E : (_ <=? _)%N = true |- _ => apply N.leb_le in E
             | E : (_ <=? _)%N = false |- _ => apply N.leb_gt in E
             | E : (_ =? _)%N = true |- _ => apply N.eqb_eq in E
             | E : (_ =? _)%N = false |- _ => apply N.eqb_neq in E
             end; lia.
  - intros [-> | ->]; reflexivity.
Qed.

(** [choice != 'N'] in [setup_auth]: after [upper], only "N" and "n"
    compare equal to "N". *)
Lemma upper_is_N (s : pystr) :
  upper s = lit "N" <-> s = lit "N" \/ s = lit "n".
Proof.
  split.
  - destruct s as [|c [|d s]]; simpl.
    + discriminate.
    + rewrite app_nil_r. intros H. apply upper_cp_N in H.
      destruct H as [-> | ->]; [left | right]; reflexivity.
    + intros H. exfalso.
      pose proof (upper_cp_nonempty c) as Hc.
      pose proof (upper_cp_nonempty d) as Hd.
      destruct (upper_cp c) as [|x [|y l]]; try congruence;
        destruct (upper_cp d) as [|x' l']; try congruence;
        simpl in H; change (lit "N") with [78%N] in H; congruence.
  - intros [-> | ->]; reflexivity.
Qed.

Lemma startswith_spec (s p : pystr) :
  startswith s p = true <-> exists post, s = p ++ post.
Proof.
  revert s. induction p as [|c p IH]; intros s; simpl.
  - split; [eauto | reflexivity].
  - destruct s as [|d s].
    + split; [discriminate | intros [post H]; discriminate].
    + rewrite andb_true_iff, N.eqb_eq, IH. split.
      * intros [-> [post ->]]. eauto.
      * intros [post [= -> ->]]. eauto.
Qed.

Lemma containsb_spec (s needle : pystr) :
  containsb s needle = true <-> contains s needle.
Proof.
  unfold contains. induction s as [|d s IH]; simpl.
  - rewrite orb_false_r, startswith_spec. split.
    + intros [post H]. exists [], post. exact H.
    + intros [[|x pre] [post H]]; [eauto | discriminate].
  - rewrite orb_true_iff, startswith_spec, IH. split.
    + intros [[post H] | [pre [post H]]].
      * exists [], post. exact H.
      * exists (d :: pre), post. simpl. congruence.
    + intros [[|x pre] [post H]].
      * left. eauto.
      * right. injection H as _ H. eauto.
Qed.

End Strings.

Example strip_demo : strip (lit "  demo ") = lit "demo".
Proof. reflexivity. Qed.

Example strip_unicode_blank : strip [32%N; 9%N; 12288%N] = [].
Proof. reflexivity. Qed.

Example upper_demo :
  upper (lit "n") = lit "N" /\ upper (lit "yes") = lit "YES".
Proof. split; reflexivity. Qed.

Example of_Z_demo : of_Z 422 = lit "422" /\ of_Z 0 = lit "0".
Proof. split; reflexivity. Qed.

(* ================================================================== *)
(** ** Methods that leave the object alone *)

Section Static.

Lemma static_ret {A} (a : A) : static (ret a).
Proof. intro s. reflexivity. Qed.

Lemma static_raise {A} (e : exn) : static (@raise_ A e).
Proof. intro s. reflexivity. Qed.

Lemma static_emit (e : event) : static (emit e).
Proof. intro s. reflexivity. Qed.

Lemma static_print (m : msg) : static (print m).
Proof. intro s. reflexivity. Qed.

Lemma static_lift {A} (o : res A) : static (lift o).
Proof. intro s. reflexivity. Qed.

Lemma static_bind {A B} (m : M A) (k : A -> M B) :
  static m -> (forall a, static (k a)) -> static (bind m k).
Proof.
  intros Hm Hk s. unfold events_of, result_of, bind.
  rewrite (Hm s), (Hm blank_session).
  destruct (result_of m) as [a|e]; [|reflexivity].
  rewrite (Hk a s), (Hk a blank_session). reflexivity.
Qed.

Lemma static_try_except {A} (m : M A) (cs : list (clause A)) :
  static m -> (forall h e, find_clause cs e = Some h -> static (h e)) ->
  static (try_except m cs).
Proof.
  intros Hm Hc s. unfold events_of, result_of, try_except.
  rewrite (Hm s), (Hm blank_session).
  destruct (result_of m) as [a|e]; [reflexivity|].
  destruct (find_clause cs e) as [h|] eqn:E; [|reflexivity].
  rewrite (Hc h e E s), (Hc h e E blank_session). reflexivity.
Qed.

Lemma static_one_clause {A} (c : exn -> bool) (h : exn -> M A) :
  (forall e, static (h e)) ->
  forall h' e, find_clause [(c, h)] e = Some h' -> static (h' e).
Proof.
  intros H h' e. simpl. destruct (c e); [|discriminate].
  intros [= <-]. apply H.
Qed.

End Static.

Ltac static_step :=
  first
    [ apply static_bind; [|intros ?]
    | apply static_try_except; [|apply static_one_clause; intros ?]
    | apply static_ret | apply static_raise | apply static_emit
    | apply static_print | apply static_lift
    | match goal with
      | |- static (match ?x with _ => _ end) => destruct x
      end
    | assumption ].

Section StaticMethods.

Variable w : World.

Lemma static_subprocess_run argv t c : static (subprocess_run w argv t c).
Proof. unfold subprocess_run. repeat static_step. Qed.

Lemma static_input p : static (input w p).
Proof. unfold input. repeat static_step. Qed.

Lemma static_requests_get u h t : static (requests_get w u h t).
Proof. unfold requests_get. repeat static_step. Qed.

Lemma static_requests_post u h d t : static (requests_post w u h d t).
Proof. unfold requests_post. repeat static_step. Qed.

Lemma static_pyperclip_copy x : static (pyperclip_copy w x).
Proof. unfold pyperclip_copy. repeat static_step. Qed.

Lemma static_json_index r k : static (json_index r k).
Proof. unfold json_index. repeat static_step. Qed.

Lemma static_json_get r k d : static (json_get r k d).
Proof. unfold json_get. repeat static_step. Qed.

Hint Resolve static_subprocess_run static_input static_requests_get
  static_requests_post static_json_index static_json_get : core.

Ltac static_method := repeat first [ solve [auto] | static_step ].

Lemma static_check_gh_cli : static (check_gh_cli w).
Proof. unfold check_gh_cli, except. static_method. Qed.

Lemma static_check_gh_auth : static (check_gh_auth w).
Proof. unfold check_gh_auth, except. static_method. Qed.

Lemma static_gh_login : static (gh_login w).
Proof. unfold gh_login, except. static_method. Qed.

Lemma static_get_token_from_input : static (get_token_from_input w).
Proof. unfold get_token_from_input. static_method. Qed.

Lemma static_get_username_from_token tok :
  static (get_username_from_token w tok).
Proof. unfold get_username_from_token, except. static_method. Qed.

Lemma static_get_username_from_gh : static (get_username_from_gh w).
Proof. unfold get_username_from_gh, except. static_method. Qed.

Lemma static_create_repo_with_gh n d p : static (create_repo_with_gh w n d p).
Proof. unfold create_repo_with_gh, except. static_method. Qed.

Lemma static_create_repo_with_api tok n d p :
  static (create_repo_with_api w tok n d p).
Proof. unfold create_repo_with_api, except. static_method. Qed.

Lemma static_get_repo_info : static (get_repo_info w).
Proof. unfold get_repo_info. static_method. Qed.

End StaticMethods.

(* ================================================================== *)
(** ** What each method does to the world, and what it returns *)

(** Unfold a method down to the calls of the world's oracles. *)
Ltac unfold_method :=
  cbv beta iota zeta delta
    [events_of result_of
     check_gh_cli check_gh_auth gh_login get_token_from_input
     get_username_from_token get_username_from_gh create_repo_with_gh
     create_repo_with_api get_repo_info
     subprocess_run input requests_get requests_post pyperclip_copy
     json_index json_get
     bind ret raise_ try_except emit print lift fst snd
     andb negb orb app find_clause except except_Exception].

Ltac innermost t :=
  match t with
  | context [match ?x with _ => _ end] => innermost x
  | _ => t
  end.

Ltac case_scrutinee :=
  match goal with
  | |- context [match ?x with _ => _ end] =>
      let y := innermost x in destruct y eqn:?
  end.

Ltac method_cases := unfold_method; repeat (case_scrutinee; unfold_method).

(** A branch on a test that the method's own exception decides. *)
Ltac absurd_test :=
  exfalso;
  match goal with
  | H : isinstance _ (Exn _ _) = _ |- _ => vm_compute in H; discriminate H
  end.

Ltac method_done := first [reflexivity | absurd_test].

Section Methods.

Variable w : World.

Lemma check_gh_cli_events :
  events_of (check_gh_cli w)
  = [ERun cmd_gh_version (Some 5) (spawn w cmd_gh_version)].
Proof. method_cases; method_done. Qed.

Lemma check_gh_cli_result :
  result_of (check_gh_cli w)
  = match spawn w cmd_gh_version with
    | Ok r => Ok (returncode r =? 0)
    | Raise e =>
        if isinstance [FileNotFoundError; TimeoutExpired] e then Ok false
        else Raise e
    end.
Proof. method_cases; method_done. Qed.

Lemma check_gh_auth_events :
  events_of (check_gh_auth w)
  = [ERun cmd_gh_auth_status (Some 5) (spawn w cmd_gh_auth_status)].
Proof. method_cases; method_done. Qed.

Lemma check_gh_auth_result :
  result_of (check_gh_auth w)
  = match spawn w cmd_gh_auth_status with
    | Ok r => Ok (returncode r =? 0)
    | Raise e => if isinstance [TimeoutExpired] e then Ok false else Raise e
    end.
Proof. method_cases; method_done. Qed.

Lemma gh_login_events :
  events_of (gh_login w)
  = [EPrint MGhLoginStart;
     ERun cmd_gh_auth_login None (spawn w cmd_gh_auth_login)].
Proof. method_cases; method_done. Qed.

Lemma gh_login_result :
  result_of (gh_login w)
  = match spawn w cmd_gh_auth_login with
    | Ok r => Ok (returncode r =? 0)
    | Raise e =>
        if isinstance [CalledProcessError] e then Ok false else Raise e
    end.
Proof. method_cases; method_done. Qed.

Lemma get_token_from_input_events :
  events_of (get_token_from_input w)
  = [EPrint MPatHelp; EInput PromptToken (console_input w PromptToken)].
Proof. method_cases; method_done. Qed.

Lemma get_token_from_input_result :
  result_of (get_token_from_input w)
  = match console_input w PromptToken with
    | Ok line =>
        Ok (if eqb (strip line) [] then VNone else VStr (strip line))
    | Raise e => Raise e
    end.
Proof. method_cases; method_done. Qed.

Lemma get_username_from_gh_events :
  events_of (get_username_from_gh w)
  = [ERun cmd_gh_api_user (Some 10) (spawn w cmd_gh_api_user)].
Proof. method_cases; method_done. Qed.

Lemma get_username_from_gh_result :
  result_of (get_username_from_gh w)
  = match spawn w cmd_gh_api_user with
    | Ok r =>
        Ok (if returncode r =? 0 then VStr (strip (stdout r)) else VNone)
    | Raise e => if isinstance [TimeoutExpired] e then Ok VNone else Raise e
    end.
Proof. method_cases; method_done. Qed.

Lemma get_username_from_token_events tok :
  exists errors,
    events_of (get_username_from_token w tok)
    = EGet url_user (api_headers tok) 10
        (http_get w url_user (api_headers tok)) :: map EPrint errors
    /\ Forall (fun m => level_of m = LError) errors.
Proof.
  method_cases;
    solve [ exists []; split; [reflexivity | constructor]
          | eexists [_]; split; [reflexivity | repeat constructor]
          | absurd_test ].
Qed.

Lemma get_username_from_token_result tok :
  result_of (get_username_from_token w tok)
  = match http_get w url_user (api_headers tok) with
    | Ok r =>
        if status_code r =? 200 then
          match json_result r with
          | Ok (JObject d) =>
              match dict_get d (lit "login") with
              | Some v => Ok v
              | None => Raise (Exn KeyError (lit "login"))
              end
          | Ok JOther => Raise (Exn TypeError [])
          | Raise e =>
              if isinstance [RequestException] e then Ok VNone else Raise e
          end
        else Ok VNone
    | Raise e => if isinstance [RequestException] e then Ok VNone else Raise e
    end.
Proof. method_cases; method_done. Qed.

Lemma get_repo_info_events :
  events_of (get_repo_info w)
  = [EPrint MSeparator;
     EInput PromptRepoName (console_input w PromptRepoName)]
    ++ match result_of (get_repo_info w) with
       | Ok None => [EPrint MRepoNameEmpty]
       | _ => []
       end.
Proof. method_cases; method_done. Qed.

Lemma get_repo_info_result :
  result_of (get_repo_info w)
  = match console_input w PromptRepoName with
    | Ok line =>
        Ok (if eqb (strip line) [] then None
            else Some {| name := strip line; description := lit "1.0";
                         is_private := false |})
    | Raise e => Raise e
    end.
Proof. method_cases; method_done. Qed.

Lemma create_repo_with_gh_events n d p :
  events_of (create_repo_with_gh w n d p)
  = [ERun (cmd_gh_repo_create n d p) (Some 30)
       (spawn w (cmd_gh_repo_create n d p))].
Proof. method_cases; method_done. Qed.

Lemma create_repo_with_gh_result n d p :
  result_of (create_repo_with_gh w n d p)
  = match spawn w (cmd_gh_repo_create n d p) with
    | Ok r => Ok (returncode r =? 0, VStr (stderr r))
    | Raise e =>
        if isinstance [TimeoutExpired] e then Ok (false, VStr txt_timed_out)
        else Raise e
    end.
Proof. method_cases; method_done. Qed.

Lemma create_repo_with_api_events tok n d p :
  events_of (create_repo_with_api w tok n d p)
  = [EPost url_user_repos (api_headers tok) (repo_data n d p) 30
       (http_post w url_user_repos (api_headers tok) (repo_data n d p))].
Proof. method_cases; method_done. Qed.

Lemma create_repo_with_api_result tok n d p :
  result_of (create_repo_with_api w tok n d p)
  = match http_post w url_user_repos (api_headers tok) (repo_data n d p) with
    | Ok r =>
        if status_code r =? 201 then Ok (true, VNone)
        else
          match json_result r with
          | Ok (JObject fields) =>
              let error_msg :=
                match dict_get fields (lit "message") with
                | Some v => v
                | None => VStr txt_unknown_error
                end in
              Ok (false,
                  VStr (txt_create_failed ++ of_Z (status_code r)
                        ++ lit "): " ++ py_str error_msg))
          | Ok JOther => Raise (Exn AttributeError [])
          | Raise e =>
              if isinstance [RequestException] e
              then Ok (false, VStr (txt_network_failed ++ exn_text e))
              else Raise e
          end
    | Raise e =>
        if isinstance [RequestException] e
        then Ok (false, VStr (txt_network_failed ++ exn_text e))
        else Raise e
    end.
Proof. method_cases; method_done. Qed.

Lemma pyperclip_copy_events x :
  events_of (pyperclip_copy w x) = [ECopy x (clipboard_copy w x)].
Proof. method_cases; method_done. Qed.

Lemma pyperclip_copy_result x :
  result_of (pyperclip_copy w x) = clipboard_copy w x.
Proof. method_cases; method_done. Qed.

End Methods.

(* ================================================================== *)
(** ** Running the script symbolically *)

Lemma input_events (w : World) (p : prompt) :
  events_of (input w p) = [EInput p (console_input w p)].
Proof. method_cases; reflexivity. Qed.

Lemma input_result (w : World) (p : prompt) :
  result_of (input w p) = console_input w p.
Proof. method_cases; reflexivity. Qed.

(** Unfold the methods that use the object, down to the calls of the
    static methods. *)
Ltac unfold_script :=
  cbv beta iota zeta delta
    [run_trace run_session run_result run resolve resolve_trace
     resolve_session resolve_result reaches_creation
     create __init__ create_repository create_and_report setup_auth
     setup_auth_pat
     bind ret raise_ try_except self set_use_gh_cli set_token set_username
     emit print lift fst snd use_gh_cli token username blank_session
     andb negb orb find_clause except except_Exception].

(** One step of a run: replace the call of a static method by its events
    and its result, or split on what the script tests next. *)
Ltac script_step :=
  match goal with
  | |- context [match ?x with _ => _ end] =>
      let y := innermost x in
      lazymatch y with
      | check_gh_cli ?w ?s => rewrite (static_check_gh_cli w s)
      | check_gh_auth ?w ?s => rewrite (static_check_gh_auth w s)
      | gh_login ?w ?s => rewrite (static_gh_login w s)
      | get_token_from_input ?w ?s =>
          rewrite (static_get_token_from_input w s)
      | get_username_from_token ?w ?t ?s =>
          rewrite (static_get_username_from_token w t s)
      | get_username_from_gh ?w ?s =>
          rewrite (static_get_username_from_gh w s)
      | create_repo_with_gh ?w ?n ?d ?p ?s =>
          rewrite (static_create_repo_with_gh w n d p s)
      | create_repo_with_api ?w ?t ?n ?d ?p ?s =>
          rewrite (static_create_repo_with_api w t n d p s)
      | get_repo_info ?w ?s => rewrite (static_get_repo_info w s)
      | pyperclip_copy ?w ?x ?s => rewrite (static_pyperclip_copy w x s)
      | input ?w ?p ?s => rewrite (static_input w p s)
      | truthy VNone => change (truthy VNone) with false
      | _ => destruct y eqn:?
      end
  end.

Ltac run_script := unfold_script; repeat (script_step; unfold_script).

(** Write the trace of a finished run event by event. *)
Ltac explicit_trace :=
  repeat match goal with
    | |- context [events_of (get_username_from_token ?w ?t)] =>
        let errors := fresh "errors" in
        let E := fresh "E" in
        let Herr := fresh "Herr" in
        destruct (get_username_from_token_events w t) as (errors & E & Herr);
        rewrite E; clear E
    end;
  rewrite ?check_gh_cli_events, ?check_gh_auth_events, ?gh_login_events,
    ?get_token_from_input_events, ?get_username_from_gh_events,
    ?get_repo_info_events, ?create_repo_with_gh_events,
    ?create_repo_with_api_events, ?pyperclip_copy_events, ?input_events;
  repeat match goal with
    | H : result_of ?m = _ |- context [result_of ?m] => rewrite H
    end;
  rewrite <- ?app_assoc; cbn [app].

(** Evaluate a classifier of events on every event of the trace. *)
Ltac classify f :=
  repeat match goal with
    | |- context [f ?e] =>
        let v := eval vm_compute in (f e) in
        lazymatch v with
        | true => change (f e) with true
        | false => change (f e) with false
        end
    end.

Lemma existsb_prints (f : event -> bool) (ms : list msg) :
  (forall m, f (EPrint m) = false) -> existsb f (map EPrint ms) = false.
Proof.
  intros H. induction ms as [|m ms IH]; simpl; [reflexivity|].
  rewrite H, IH. reflexivity.
Qed.

Lemma forallb_prints (f : event -> bool) (ms : list msg) :
  (forall m, f (EPrint m) = true) -> forallb f (map EPrint ms) = true.
Proof.
  intros H. induction ms as [|m ms IH]; simpl; [reflexivity|].
  rewrite H, IH. reflexivity.
Qed.

Lemma not_in_prints (e : event) (ms : list msg) :
  (forall m, e <> EPrint m) -> ~ In e (map EPrint ms).
Proof.
  intros H Hin. apply in_map_iff in Hin. destruct Hin as (m & <- & _).
  apply (H m). reflexivity.
Qed.

Ltac count f :=
  repeat first [progress cbn [existsb] | rewrite existsb_app];
  rewrite ?(existsb_prints f) by reflexivity;
  classify f; cbn [orb andb negb].


(* ================================================================== *)
(** ** Properties of a run *)

Ltac in_list := repeat first [left; reflexivity | right].

(** C1 (fails on the helper path).  The helper is installed and logged
    in, but [gh api user] exits with status 1: [setup_auth] stores
    [None] as the username and still returns [True], so the Repository
    Creator runs with an empty username and prints a clone URL built
    from "None".  The token path of the same method rejects an empty
    username. *)
Theorem helper_path_keeps_missing_username :
  resolve_result Worlds.helper_without_username = Ok true
  /\ reaches_creation Worlds.helper_without_username = true
  /\ helper_authenticated (resolve_trace Worlds.helper_without_username)
     = true
  /\ token (resolve_session Worlds.helper_without_username) = VNone
  /\ username (resolve_session Worlds.helper_without_username) = VNone
  /\ truthy (username (resolve_session Worlds.helper_without_username))
     = false
  /\ existsb is_gh_create (run_trace Worlds.helper_without_username) = true
  /\ run_result Worlds.helper_without_username = Ok true
  /\ In (EPrint (MRepoUrl (lit "https://github.com/None/demo.git")))
       (run_trace Worlds.helper_without_username).
Proof.
  repeat split; try reflexivity.
  vm_compute. in_list.
Qed.

(** C4 (fails when the error body is not JSON).  A gateway answers the
    creation call with status 502 and an HTML page: [response.json()]
    raises, the [except RequestException] clause reports a network
    failure, and the only error line printed does not contain the status
    code. *)
Theorem non_json_error_body_hides_status :
  existsb is_api_create (run_trace Worlds.alice_bad_gateway) = true
  /\ run_result Worlds.alice_bad_gateway = Ok false
  /\ printed_errors (run_trace Worlds.alice_bad_gateway)
     = [MCreateFailed
          (txt_network_failed
           ++ lit "Expecting value: line 1 column 1 (char 0)")]
  /\ containsb
       (txt_network_failed ++ lit "Expecting value: line 1 column 1 (char 0)")
       (of_Z 502) = false.
Proof.
  repeat split; reflexivity.
Qed.

(** Membership in an explicit trace, as a hypothesis and as a goal. *)
Ltac in_cases H :=
  lazymatch type of H with
  | In _ (map EPrint _ ++ _) =>
      apply in_app_or in H; destruct H as [H|H];
      [ exfalso; revert H; apply not_in_prints; discriminate
      | in_cases H ]
  | In _ (map EPrint _) =>
      exfalso; revert H; apply not_in_prints; discriminate
  | In _ (_ :: _) =>
      destruct H as [H|H]; [try discriminate H | in_cases H]
  | In _ [] => destruct H
  | _ => idtac
  end.

Ltac in_trace :=
  repeat first [apply in_eq | apply in_cons | apply in_or_app; right].


(** What [get_repo_info] returns on a blank line. *)
Lemma blank_name_rejected (w : World) (line : pystr) :
  console_input w PromptRepoName = Ok line -> blank line = true ->
  result_of (get_repo_info w) = Ok None.
Proof.
  intros Hline Hblank. rewrite get_repo_info_result, Hline.
  apply strip_nil_blank in Hblank. rewrite Hblank. reflexivity.
Qed.

(** C3.  When the repository name prompt is answered by an empty or
    whitespace-only line, the run makes no creation call on either
    transport, prints the validation error "仓库名称不能为空" and
    [create_repository] returns [False]. *)
Theorem blank_repo_name_aborts (w : World) (line : pystr) :
  In (EInput PromptRepoName (Ok line)) (run_trace w) ->
  blank line = true ->
  existsb is_creation_call (run_trace w) = false
  /\ In (EPrint MRepoNameEmpty) (run_trace w)
  /\ level_of MRepoNameEmpty = LError
  /\ run_result w = Ok false.
Proof.
  run_script; explicit_trace; intros Hin Hblank; in_cases Hin;
    injection Hin as Hin;
    pose proof (blank_name_rejected w line Hin Hblank) as Hnone;
    try congruence.
  all: count is_creation_call; repeat split; in_trace.
Qed.

Lemma blank_repo_name_aborts_witness :
  (In (EInput PromptRepoName (Ok (lit "   ")))
     (run_trace Worlds.helper_blank_name)
   /\ blank (lit "   ") = true)
  /\ existsb is_creation_call (run_trace Worlds.helper_blank_name) = false
  /\ In (EPrint MRepoNameEmpty) (run_trace Worlds.helper_blank_name)
  /\ level_of MRepoNameEmpty = LError
  /\ run_result Worlds.helper_blank_name = Ok false.
Proof.
  assert (Hin : In (EInput PromptRepoName (Ok (lit "   ")))
                  (run_trace Worlds.helper_blank_name))
    by (vm_compute; in_list).
  assert (Hblank : blank (lit "   ") = true) by reflexivity.
  split; [split; assumption|].
  exact (blank_repo_name_aborts Worlds.helper_blank_name (lit "   ")
           Hin Hblank).
Defined.

(** What a successful creation call looks like in the trace. *)
Lemma gh_create_succeeded (w : World) n d p v :
  result_of (create_repo_with_gh w n d p) = Ok (true, v) ->
  successful_create
    (ERun (cmd_gh_repo_create n d p) (Some 30)
       (spawn w (cmd_gh_repo_create n d p))) = true.
Proof.
  rewrite create_repo_with_gh_result.
  destruct (spawn w (cmd_gh_repo_create n d p)) as [r|e].
  - intros [= H _]. cbn. rewrite H. reflexivity.
  - destruct (isinstance [TimeoutExpired] e); discriminate.
Qed.

Lemma gh_create_failed (w : World) n d p v :
  result_of (create_repo_with_gh w n d p) = Ok (false, v) ->
  successful_create
    (ERun (cmd_gh_repo_create n d p) (Some 30)
       (spawn w (cmd_gh_repo_create n d p))) = false.
Proof.
  rewrite create_repo_with_gh_result.
  destruct (spawn w (cmd_gh_repo_create n d p)) as [r|e]; [|reflexivity].
  intros [= H _]. cbn. rewrite H. reflexivity.
Qed.

Lemma gh_create_raised (w : World) n d p e :
  result_of (create_repo_with_gh w n d p) = Raise e ->
  successful_create
    (ERun (cmd_gh_repo_create n d p) (Some 30)
       (spawn w (cmd_gh_repo_create n d p))) = false.
Proof.
  rewrite create_repo_with_gh_result.
  destruct (spawn w (cmd_gh_repo_create n d p)) as [r|e']; [discriminate|].
  reflexivity.
Qed.

Lemma api_create_succeeded (w : World) tok n d p v :
  result_of (create_repo_with_api w tok n d p) = Ok (true, v) ->
  successful_create
    (EPost url_user_repos (api_headers tok) (repo_data n d p) 30
       (http_post w url_user_repos (api_headers tok) (repo_data n d p)))
  = true.
Proof.
  rewrite create_repo_with_api_result.
  destruct (http_post w url_user_repos (api_headers tok) (repo_data n d p))
    as [r|e].
  - destruct (status_code r =? 201) eqn:E.
    + intros _. cbn. rewrite E. reflexivity.
    + destruct (json_result r) as [[fields|]|e]; try discriminate.
      destruct (isinstance [RequestException] e); discriminate.
  - destruct (isinstance [RequestException] e); discriminate.
Qed.

Lemma api_create_failed (w : World) tok n d p v :
  result_of (create_repo_with_api w tok n d p) = Ok (false, v) ->
  successful_create
    (EPost url_user_repos (api_headers tok) (repo_data n d p) 30
       (http_post w url_user_repos (api_headers tok) (repo_data n d p)))
  = false.
Proof.
  rewrite create_repo_with_api_result.
  destruct (http_post w url_user_repos (api_headers tok) (repo_data n d p))
    as [r|e]; [|reflexivity].
  destruct (status_code r =? 201) eqn:E; [discriminate|].
  intros _. cbn. rewrite E. reflexivity.
Qed.

Lemma api_create_raised (w : World) tok n d p e :
  result_of (create_repo_with_api w tok n d p) = Raise e ->
  successful_create
    (EPost url_user_repos (api_headers tok) (repo_data n d p) 30
       (http_post w url_user_repos (api_headers tok) (repo_data n d p)))
  = false.
Proof.
  rewrite create_repo_with_api_result.
  destruct (http_post w url_user_repos (api_headers tok) (repo_data n d p))
    as [r|e']; [|reflexivity].
  destruct (status_code r =? 201) eqn:E; [discriminate|].
  intros _. cbn. rewrite E. reflexivity.
Qed.

(** Decide [successful_create] on the creation call of an explicit
    trace from what the transport returned. *)
Ltac creation_outcome :=
  repeat match goal with
    | H : result_of (create_repo_with_gh _ _ _ _) = Ok (true, _) |- _ =>
        progress rewrite (gh_create_succeeded _ _ _ _ _ H)
    | H : result_of (create_repo_with_gh _ _ _ _) = Ok (false, _) |- _ =>
        progress rewrite (gh_create_failed _ _ _ _ _ H)
    | H : result_of (create_repo_with_gh _ _ _ _) = Raise _ |- _ =>
        progress rewrite (gh_create_raised _ _ _ _ _ H)
    | H : result_of (create_repo_with_api _ _ _ _ _) = Ok (true, _) |- _ =>
        progress rewrite (api_create_succeeded _ _ _ _ _ _ H)
    | H : result_of (create_repo_with_api _ _ _ _ _) = Ok (false, _) |- _ =>
        progress rewrite (api_create_failed _ _ _ _ _ _ H)
    | H : result_of (create_repo_with_api _ _ _ _ _) = Raise _ |- _ =>
        progress rewrite (api_create_raised _ _ _ _ _ _ H)
    end.

(** The repository request [get_repo_info] builds. *)
Lemma repo_info_from_prompt (w : World) (r : RepoInfo) :
  result_of (get_repo_info w) = Ok (Some r) ->
  exists line,
    console_input w PromptRepoName = Ok line
    /\ strip line <> []
    /\ r = {| name := strip line; description := lit "1.0";
              is_private := false |}.
Proof.
  rewrite get_repo_info_result.
  destruct (console_input w PromptRepoName) as [line|e]; [|discriminate].
  destruct (eqb (strip line) []) eqn:E; [discriminate|].
  intros [= <-]. exists line. apply eqb_neq in E. auto.
Qed.

(** Cutting an explicit trace in two. *)
Lemma cut_here {A} (l : list A) : l = [] ++ l.
Proof. reflexivity. Qed.

Lemma cut_later {A} (x : A) (l pre r : list A) :
  l = pre ++ r -> x :: l = (x :: pre) ++ r.
Proof. intros ->. reflexivity. Qed.

Lemma cut_after {A} (m l pre r : list A) :
  l = pre ++ r -> m ++ l = (m ++ pre) ++ r.
Proof. intros ->. apply app_assoc. Qed.

Ltac cut_trace :=
  repeat first
    [ exact (cut_here _) | apply cut_later | apply cut_after ].

(** C5.  Whenever the creation call reports success, the next lines
    printed are the success line and the clone URL, and that URL is the
    concatenation of "https://github.com/", the object's username, "/",
    the repository name (the stripped answer to the name prompt) and
    ".git"; nothing after the creation call reaches the platform or the
    helper again. *)
Theorem clone_url_is_template (w : World) :
  creation_succeeds w ->
  exists line pre call post,
    console_input w PromptRepoName = Ok line
    /\ run_trace w
       = pre
         ++ [call; EPrint MCreated;
             EPrint (MRepoUrl
                       (lit "https://github.com/"
                        ++ py_str (username (run_session w))
                        ++ lit "/" ++ strip line ++ lit ".git"))]
         ++ post
    /\ successful_create call = true
    /\ existsb is_remote_call post = false.
Proof.
  unfold creation_succeeds.
  run_script; explicit_trace; count successful_create; creation_outcome;
    cbn [orb]; try discriminate; intros _.
  all: match goal with
       | H : result_of (get_repo_info _) = Ok (Some _) |- _ =>
           destruct (repo_info_from_prompt _ _ H) as (line & Hline & _ & ->)
       end.
  all: exists line; eexists; eexists; eexists.
  all: split; [exact Hline|].
  all: split; [cbn [app]; unfold clone_url; cut_trace|].
  all: split; [creation_outcome; reflexivity
              | count is_remote_call; reflexivity].
Qed.

Lemma clone_url_is_template_witness :
  creation_succeeds Worlds.alice_created
  /\ exists line pre call post,
      console_input Worlds.alice_created PromptRepoName = Ok line
      /\ run_trace Worlds.alice_created
         = pre
           ++ [call; EPrint MCreated;
               EPrint (MRepoUrl
                         (lit "https://github.com/"
                          ++ py_str (username
                                       (run_session Worlds.alice_created))
                          ++ lit "/" ++ strip line ++ lit ".git"))]
           ++ post
      /\ successful_create call = true
      /\ existsb is_remote_call post = false.
Proof.
  assert (H : creation_succeeds Worlds.alice_created) by reflexivity.
  split; [exact H|].
  exact (clone_url_is_template Worlds.alice_created H).
Defined.

(** What the identity call decides for [get_username_from_token]. *)
Lemma identity_login (w : World) (tok login : pyval) r fields :
  http_get w url_user (api_headers tok) = Ok r ->
  status_code r = 200 ->
  json_result r = Ok (JObject fields) ->
  dict_get fields (lit "login") = Some login ->
  result_of (get_username_from_token w tok) = Ok login.
Proof.
  intros H Hs Hj Hl.
  rewrite get_username_from_token_result, H, Hs, Hj, Hl. reflexivity.
Qed.

Lemma identity_other_status (w : World) (tok : pyval) r :
  http_get w url_user (api_headers tok) = Ok r ->
  status_code r <> 200 ->
  result_of (get_username_from_token w tok) = Ok VNone.
Proof.
  intros H Hs. rewrite get_username_from_token_result, H.
  apply Z.eqb_neq in Hs. rewrite Hs. reflexivity.
Qed.

Lemma identity_network_failure (w : World) (tok : pyval) e :
  http_get w url_user (api_headers tok) = Raise e ->
  exn_cls e = RequestException ->
  result_of (get_username_from_token w tok) = Ok VNone.
Proof.
  intros H Hc. rewrite get_username_from_token_result, H.
  unfold isinstance. rewrite Hc. reflexivity.
Qed.

Lemma token_from_prompt (w : World) (line : pystr) :
  console_input w PromptToken = Ok line ->
  eqb (strip line) [] = false ->
  result_of (get_token_from_input w) = Ok (VStr (strip line)).
Proof.
  intros H Hne. rewrite get_token_from_input_result, H, Hne. reflexivity.
Qed.

(** C6.  When the token prompt is answered by a line that is not blank,
    the token kept is the stripped line and the identity call decides:
    on status 200 with a JSON object that has a [login] field, the
    object's username is the value of that field; on any other status,
    and on a network failure ([requests.RequestException]), credential
    resolution fails: [setup_auth] returns [False]. *)
Theorem token_identity_sets_username (w : World) (line : pystr) :
  In (EInput PromptToken (Ok line)) (resolve_trace w) ->
  eqb (strip line) [] = false ->
  (forall r fields login,
      http_get w url_user (api_headers (VStr (strip line))) = Ok r ->
      status_code r = 200 ->
      json_result r = Ok (JObject fields) ->
      dict_get fields (lit "login") = Some login ->
      token (resolve_session w) = VStr (strip line)
      /\ username (resolve_session w) = login)
  /\ (forall r,
        http_get w url_user (api_headers (VStr (strip line))) = Ok r ->
        status_code r <> 200 ->
        resolve_result w = Ok false)
  /\ (forall e,
        http_get w url_user (api_headers (VStr (strip line))) = Raise e ->
        exn_cls e = RequestException ->
        resolve_result w = Ok false).
Proof.
  run_script; explicit_trace; intros Hin Hne; in_cases Hin;
    injection Hin as Hin;
    pose proof (token_from_prompt w line Hin Hne) as Htok;
    try congruence.
  all: match goal with
       | H : result_of (get_token_from_input _) = Ok ?v |- _ =>
           assert (v = VStr (strip line)) by congruence; subst v
       end.
  all: try match goal with
       | H : truthy (VStr _) = false |- _ =>
           cbn in H; rewrite Hne in H; discriminate H
       end.
  all: split;
    [ intros r fields login H1 H2 H3 H4;
      pose proof (identity_login w _ login r fields H1 H2 H3 H4)
    | split;
      [ intros r H1 H2; pose proof (identity_other_status w _ r H1 H2)
      | intros e' H1 H2;
        pose proof (identity_network_failure w _ e' H1 H2) ] ].
  all: try congruence; try (split; congruence).
  all: match goal with
       | Ht : truthy ?v = true,
         Hv : result_of ?m = Ok ?v,
         Hn : result_of ?m = Ok VNone |- _ =>
           assert (v = VNone) by congruence; subst v; discriminate Ht
       end.
Qed.

Lemma token_identity_sets_username_witness :
  (In (EInput PromptToken (Ok (lit "abc123")))
     (resolve_trace Worlds.alice_created)
   /\ eqb (strip (lit "abc123")) [] = false)
  /\ (forall r fields login,
         http_get Worlds.alice_created url_user
           (api_headers (VStr (strip (lit "abc123")))) = Ok r ->
         status_code r = 200 ->
         json_result r = Ok (JObject fields) ->
         dict_get fields (lit "login") = Some login ->
         token (resolve_session Worlds.alice_created)
         = VStr (strip (lit "abc123"))
         /\ username (resolve_session Worlds.alice_created) = login)
  /\ (forall r,
         http_get Worlds.alice_created url_user
           (api_headers (VStr (strip (lit "abc123")))) = Ok r ->
         status_code r <> 200 ->
         resolve_result Worlds.alice_created = Ok false)
  /\ (forall e,
         http_get Worlds.alice_created url_user
           (api_headers (VStr (strip (lit "abc123")))) = Raise e ->
         exn_cls e = RequestException ->
         resolve_result Worlds.alice_created = Ok false).
Proof.
  assert (Hin : In (EInput PromptToken (Ok (lit "abc123")))
                  (resolve_trace Worlds.alice_created))
    by (vm_compute; in_list).
  assert (Hne : eqb (strip (lit "abc123")) [] = false) by reflexivity.
  split; [split; assumption|].
  exact (token_identity_sets_username Worlds.alice_created (lit "abc123")
           Hin Hne).
Defined.

(** The presence probe fails exactly when [gh --version] exits with a
    status other than zero, cannot be found, or times out. *)
Lemma helper_absent_iff (w : World) :
  helper_absent w <->
  match spawn w cmd_gh_version with
  | Ok r => returncode r <> 0
  | Raise e => exn_cls e = FileNotFoundError \/ exn_cls e = TimeoutExpired
  end.
Proof.
  unfold helper_absent. rewrite check_gh_cli_result.
  destruct (spawn w cmd_gh_version) as [r|[c t]].
  - rewrite <- Z.eqb_neq. destruct (returncode r =? 0); split; congruence.
  - destruct c; cbn; split; intros H; try discriminate H; auto;
      destruct H; discriminate.
Qed.

(** C7.  When the presence probe fails, the run goes from the probe
    straight to the token prompt, and nothing after the probe invokes
    the helper: no [gh auth status], no [gh auth login], no [gh api
    user], no [gh repo create]. *)
Theorem absent_helper_is_never_invoked (w : World) :
  helper_absent w ->
  exists rest,
    run_trace w
    = [ERun cmd_gh_version (Some 5) (spawn w cmd_gh_version);
       EPrint MBanner; EPrint MGhMissing; EPrint MPatHelp;
       EInput PromptToken (console_input w PromptToken)] ++ rest
    /\ existsb is_helper_call rest = false.
Proof.
  unfold helper_absent.
  run_script; explicit_trace; intros H; try discriminate H.
  all: eexists; split; [reflexivity|].
  all: count is_helper_call; reflexivity.
Qed.

Lemma absent_helper_is_never_invoked_witness :
  helper_absent Worlds.alice_created
  /\ exists rest,
      run_trace Worlds.alice_created
      = [ERun cmd_gh_version (Some 5)
           (spawn Worlds.alice_created cmd_gh_version);
         EPrint MBanner; EPrint MGhMissing; EPrint MPatHelp;
         EInput PromptToken
           (console_input Worlds.alice_created PromptToken)] ++ rest
      /\ existsb is_helper_call rest = false.
Proof.
  assert (H : helper_absent Worlds.alice_created) by reflexivity.
  split; [exact H|].
  exact (absent_helper_is_never_invoked Worlds.alice_created H).
Defined.

(* ================================================================== *)
(** ** The program around a run *)

(** [main] prints the import warning when pyperclip is missing, the
    start-up lines, runs the script, reports how it ended and waits for
    the last key press. *)
Lemma main_trace_eq (w : World) :
  main_trace w
  = (if pyperclip_installed w then [] else [EPrint MNoPyperclip])
    ++ [EPrint MStartup]
    ++ run_trace w
    ++ match run_result w with
       | Ok true => [EPrint MDone]
       | Ok false => []
       | Raise e =>
           if isinstance [KeyboardInterrupt] e then [EPrint MCancelled]
           else if is_Exception e then [EPrint (MUnexpected e)]
           else []
       end
    ++ [EPrint MFooter; EInput PromptExit (console_input w PromptExit)].
Proof.
  unfold main_trace, main, run_trace, run_result, run.
  destruct (pyperclip_installed w);
    cbv beta iota zeta delta
      [bind ret print emit try_finally try_except find_clause except
       except_Exception];
    destruct (create w blank_session) as [[t s] [[|]|e]];
    cbv beta iota zeta delta [fst snd];
    try destruct (isinstance [KeyboardInterrupt] e);
    try destruct (is_Exception e);
    cbv beta iota; rewrite (static_input w PromptExit), input_events;
    destruct (result_of (input w PromptExit));
    cbn [app]; rewrite <- ?app_assoc, ?app_nil_r; reflexivity.
Qed.

Lemma main_reports_success (w : World) :
  run_result w = Ok true -> In (EPrint MDone) (main_trace w).
Proof.
  intros H. rewrite main_trace_eq, H.
  apply in_or_app. right. apply in_cons.
  apply in_or_app. right. apply in_eq.
Qed.

Lemma main_warns_without_pyperclip (w : World) :
  pyperclip_installed w = false ->
  hd_error (main_trace w) = Some (EPrint MNoPyperclip).
Proof.
  intros H. rewrite main_trace_eq, H. reflexivity.
Qed.

(** C8.  After a successful creation call, a clipboard that is missing
    or that fails does not change the outcome: [create_repository]
    returns [True] and [main] prints its completion banner.  A missing
    pyperclip is reported by the import-time warning and the run ends on
    the hint to copy the address by hand; a failing [pyperclip.copy]
    (any [Exception]) is reported by a warning line followed by the same
    advice, and nothing else follows. *)
Theorem clipboard_failure_is_only_a_warning (w : World) :
  creation_succeeds w ->
  (pyperclip_installed w = false ->
   run_result w = Ok true
   /\ (exists pre, run_trace w = pre ++ [EPrint MPleaseCopy])
   /\ hd_error (main_trace w) = Some (EPrint MNoPyperclip)
   /\ level_of MNoPyperclip = LWarning
   /\ In (EPrint MDone) (main_trace w))
  /\ (forall url e,
        In (ECopy url (Raise e)) (run_trace w) ->
        is_Exception e = true ->
        run_result w = Ok true
        /\ (exists pre,
               run_trace w
               = pre ++ [ECopy url (Raise e); EPrint (MCopyFailed e);
                         EPrint MCopyManually])
        /\ level_of (MCopyFailed e) = LWarning
        /\ In (EPrint MDone) (main_trace w)).
Proof.
  intros Hok.
  assert (Hrun :
    (pyperclip_installed w = false ->
     run_result w = Ok true
     /\ exists pre, run_trace w = pre ++ [EPrint MPleaseCopy])
    /\ (forall url e,
          In (ECopy url (Raise e)) (run_trace w) ->
          is_Exception e = true ->
          run_result w = Ok true
          /\ exists pre,
               run_trace w
               = pre ++ [ECopy url (Raise e); EPrint (MCopyFailed e);
                         EPrint MCopyManually])).
  { revert Hok. unfold creation_succeeds.
    run_script; explicit_trace; count successful_create; creation_outcome;
      cbn [orb]; try discriminate; intros _.
    all: split;
      [ intros Hmissing;
        first [ congruence | split; [reflexivity | eexists; cut_trace] ]
      | intros url e' Hin Hexc; in_cases Hin; injection Hin as <- Hin;
        match goal with
        | Hc : result_of (pyperclip_copy _ _) = _ |- _ =>
            rewrite pyperclip_copy_result, Hin in Hc;
            first [ discriminate Hc | injection Hc as <- ]
        end;
        first [ congruence
              | rewrite Hin; split; [reflexivity | eexists; cut_trace] ] ]. }
  destruct Hrun as [Hmissing Hfails]. split.
  - intros H. destruct (Hmissing H) as [Hres Hpre].
    repeat split; auto using main_reports_success,
      main_warns_without_pyperclip.
  - intros url e Hin Hexc. destruct (Hfails url e Hin Hexc) as [Hres Hpre].
    repeat split; auto using main_reports_success.
Qed.

Lemma clipboard_failure_is_only_a_warning_witness :
  creation_succeeds Worlds.alice_clipboard_broken
  /\ (pyperclip_installed Worlds.alice_clipboard_broken = false ->
      run_result Worlds.alice_clipboard_broken = Ok true
      /\ (exists pre,
             run_trace Worlds.alice_clipboard_broken
             = pre ++ [EPrint MPleaseCopy])
      /\ hd_error (main_trace Worlds.alice_clipboard_broken)
         = Some (EPrint MNoPyperclip)
      /\ level_of MNoPyperclip = LWarning
      /\ In (EPrint MDone) (main_trace Worlds.alice_clipboard_broken))
  /\ (forall url e,
         In (ECopy url (Raise e)) (run_trace Worlds.alice_clipboard_broken) ->
         is_Exception e = true ->
         run_result Worlds.alice_clipboard_broken = Ok true
         /\ (exists pre,
                run_trace Worlds.alice_clipboard_broken
                = pre ++ [ECopy url (Raise e); EPrint (MCopyFailed e);
                          EPrint MCopyManually])
         /\ level_of (MCopyFailed e) = LWarning
         /\ In (EPrint MDone) (main_trace Worlds.alice_clipboard_broken)).
Proof.
  assert (H : creation_succeeds Worlds.alice_clipboard_broken)
    by reflexivity.
  split; [exact H|].
  exact (clipboard_failure_is_only_a_warning Worlds.alice_clipboard_broken H).
Defined.

(** The two cases of C8 on concrete runs. *)
Example clipboard_missing_run :
  run_result Worlds.alice_no_clipboard = Ok true
  /\ printed_errors (main_trace Worlds.alice_no_clipboard) = []
  /\ In (EPrint MDone) (main_trace Worlds.alice_no_clipboard).
Proof. repeat split; try reflexivity. vm_compute. in_list. Qed.

Example clipboard_broken_run :
  run_result Worlds.alice_clipboard_broken = Ok true
  /\ printed_errors (main_trace Worlds.alice_clipboard_broken) = []
  /\ In (EPrint MDone) (main_trace Worlds.alice_clipboard_broken).
Proof. repeat split; try reflexivity. vm_compute. in_list. Qed.

Lemma api_created (w : World) (tok : pyval) n d p r :
  http_post w url_user_repos (api_headers tok) (repo_data n d p) = Ok r ->
  status_code r = 201 ->
  result_of (create_repo_with_api w tok n d p) = Ok (true, VNone).
Proof.
  intros H Hs. rewrite create_repo_with_api_result, H, Hs. reflexivity.
Qed.

(** C9.  Helper absent, token "abc123", identity call answered 200 with
    a body whose [login] is "alice", repository name "demo": the
    creation call is a POST to /user/repos carrying the token and the
    JSON object {"name": "demo", "private": false, "auto_init": false,
    "description": "1.0"}; when it is answered 201 the run prints the
    clone URL https://github.com/alice/demo.git. *)
Theorem scenario_alice_demo (w : World) (r : Response) (fields : dict) :
  helper_absent w ->
  console_input w PromptToken = Ok (lit "abc123") ->
  http_get w url_user (api_headers (VStr (lit "abc123"))) = Ok r ->
  status_code r = 200 ->
  json_result r = Ok (JObject fields) ->
  dict_get fields (lit "login") = Some (VStr (lit "alice")) ->
  console_input w PromptRepoName = Ok (lit "demo") ->
  In (EPost url_user_repos (api_headers (VStr (lit "abc123")))
        [ (lit "name", VStr (lit "demo"));
          (lit "private", VBool false);
          (lit "auto_init", VBool false);
          (lit "description", VStr (lit "1.0")) ]
        30
        (http_post w url_user_repos (api_headers (VStr (lit "abc123")))
           [ (lit "name", VStr (lit "demo"));
             (lit "private", VBool false);
             (lit "auto_init", VBool false);
             (lit "description", VStr (lit "1.0")) ]))
     (run_trace w)
  /\ (forall r',
        http_post w url_user_repos (api_headers (VStr (lit "abc123")))
          [ (lit "name", VStr (lit "demo"));
            (lit "private", VBool false);
            (lit "auto_init", VBool false);
            (lit "description", VStr (lit "1.0")) ] = Ok r' ->
        status_code r' = 201 ->
        In (EPrint (MRepoUrl (lit "https://github.com/alice/demo.git")))
          (run_trace w)).
Proof.
  intros Habsent Htoken Hget Hstatus Hjson Hlogin Hname.
  assert (Htok : result_of (get_token_from_input w)
                 = Ok (VStr (lit "abc123")))
    by (rewrite get_token_from_input_result, Htoken; reflexivity).
  pose proof (identity_login w _ _ r fields Hget Hstatus Hjson Hlogin)
    as Huser.
  assert (Hinfo : result_of (get_repo_info w)
                  = Ok (Some {| name := lit "demo"; description := lit "1.0";
                                is_private := false |}))
    by (rewrite get_repo_info_result, Hname; reflexivity).
  unfold helper_absent in Habsent.
  assert (Hpost : forall r',
    http_post w url_user_repos (api_headers (VStr (lit "abc123")))
      (repo_data (lit "demo") (lit "1.0") false) = Ok r' ->
    status_code r' = 201 ->
    result_of (create_repo_with_api w (VStr (lit "abc123")) (lit "demo")
                 (lit "1.0") false) = Ok (true, VNone))
    by (intros r'; apply api_created).
  change (repo_data (lit "demo") (lit "1.0") false)
    with [ (lit "name", VStr (lit "demo"));
           (lit "private", VBool false);
           (lit "auto_init", VBool false);
           (lit "description", VStr (lit "1.0")) ] in Hpost.
  revert Habsent Htok Hinfo.
  run_script; explicit_trace; intros Habsent Htok Hinfo;
    try discriminate;
    injection Htok as ->; try injection Hinfo as ->;
    try congruence;
    try (match goal with
         | H : truthy (VStr (lit _)) = false |- _ =>
             vm_compute in H; discriminate H
         end).
  all: match goal with
       | H : result_of (get_username_from_token _ _) = Ok ?v |- _ =>
           assert (v = VStr (lit "alice")) by congruence; subst v
       end.
  all: try (match goal with
            | H : truthy (VStr (lit _)) = false |- _ =>
                vm_compute in H; discriminate H
            end).
  all: cbn [name description is_private] in *.
  all: split; [in_trace|].
  all: intros r' Hp Hs; specialize (Hpost r' Hp Hs);
    first [congruence | in_trace].
Qed.

Lemma scenario_alice_demo_witness :
  (helper_absent Worlds.alice_created
   /\ console_input Worlds.alice_created PromptToken = Ok (lit "abc123")
   /\ http_get Worlds.alice_created url_user
        (api_headers (VStr (lit "abc123")))
      = Ok {| status_code := 200;
              json_result :=
                Ok (JObject [(lit "login", VStr (lit "alice"))]) |}
   /\ console_input Worlds.alice_created PromptRepoName = Ok (lit "demo"))
  /\ In (EPost url_user_repos (api_headers (VStr (lit "abc123")))
           [ (lit "name", VStr (lit "demo"));
             (lit "private", VBool false);
             (lit "auto_init", VBool false);
             (lit "description", VStr (lit "1.0")) ]
           30
           (http_post Worlds.alice_created url_user_repos
              (api_headers (VStr (lit "abc123")))
              [ (lit "name", VStr (lit "demo"));
                (lit "private", VBool false);
                (lit "auto_init", VBool false);
                (lit "description", VStr (lit "1.0")) ]))
        (run_trace Worlds.alice_created)
  /\ (forall r',
         http_post Worlds.alice_created url_user_repos
           (api_headers (VStr (lit "abc123")))
           [ (lit "name", VStr (lit "demo"));
             (lit "private", VBool false);
             (lit "auto_init", VBool false);
             (lit "description", VStr (lit "1.0")) ] = Ok r' ->
         status_code r' = 201 ->
         In (EPrint (MRepoUrl (lit "https://github.com/alice/demo.git")))
           (run_trace Worlds.alice_created)).
Proof.
  assert (H1 : helper_absent Worlds.alice_created) by reflexivity.
  assert (H2 : console_input Worlds.alice_created PromptToken
               = Ok (lit "abc123")) by reflexivity.
  assert (H3 : http_get Worlds.alice_created url_user
                 (api_headers (VStr (lit "abc123")))
               = Ok {| status_code := 200;
                       json_result :=
                         Ok (JObject [(lit "login", VStr (lit "alice"))]) |})
    by reflexivity.
  assert (H4 : console_input Worlds.alice_created PromptRepoName
               = Ok (lit "demo")) by reflexivity.
  split; [repeat split; assumption|].
  exact (scenario_alice_demo Worlds.alice_created _ _ H1 H2 H3
           eq_refl eq_refl eq_refl H4).
Defined.

(** The scenario of C9 run to its end. *)
Example alice_demo_end_to_end :
  run_result Worlds.alice_created = Ok true
  /\ printed_errors (main_trace Worlds.alice_created) = []
  /\ In (EPrint (MRepoUrl (lit "https://github.com/alice/demo.git")))
       (run_trace Worlds.alice_created).
Proof. repeat split; try reflexivity. vm_compute. in_list. Qed.

(** The test [choice != 'N'] of [setup_auth] on the answer [line]. *)
Lemma declines_iff (line : pystr) :
  eqb (upper (strip line)) (lit "N") = true
  <-> strip line = lit "N" \/ strip line = lit "n".
Proof. rewrite eqb_eq. apply upper_is_N. Qed.

(** C10.  At the helper-login prompt every answer whose stripped,
    upper-cased form differs from "N" (the empty answer included) starts
    [gh auth login]; the login is skipped exactly when the stripped
    answer is "N" or "n", and the run then goes straight to the token
    prompt. *)
Theorem login_prompt_defaults_to_yes (w : World) (line : pystr) :
  In (EInput PromptGhLogin (Ok line)) (run_trace w) ->
  (upper (strip line) <> lit "N" ->
   In (ERun cmd_gh_auth_login None (spawn w cmd_gh_auth_login))
     (run_trace w))
  /\ (~ In (ERun cmd_gh_auth_login None (spawn w cmd_gh_auth_login))
        (run_trace w)
      <-> strip line = lit "N" \/ strip line = lit "n")
  /\ (strip line = lit "N" \/ strip line = lit "n" ->
      exists pre post,
        run_trace w
        = pre
          ++ [EInput PromptGhLogin (Ok line); EPrint MPatHelp;
              EInput PromptToken (console_input w PromptToken)]
          ++ post).
Proof.
  run_script; explicit_trace; intros Hin; in_cases Hin;
    injection Hin as Hin; rewrite ?Hin;
    match goal with
    | H : result_of (input _ PromptGhLogin) = _ |- _ =>
        rewrite input_result, Hin in H;
        first [discriminate H | injection H as <-]
    end;
    match goal with
    | H : eqb (upper (strip line)) (lit "N") = true |- _ =>
        pose proof (proj1 (declines_iff line) H) as Hdecl;
        apply eqb_eq in H
    | H : eqb (upper (strip line)) (lit "N") = false |- _ =>
        assert (Haccept : ~ (strip line = lit "N" \/ strip line = lit "n"))
          by (rewrite <- declines_iff; congruence)
    end.
  all: split; [intros Hne; first [congruence | in_trace]|].
  all: split;
    [ split;
      [ intros Hnot; first [ exact Hdecl | exfalso; apply Hnot; in_trace ]
      | intros Hd Hlogin; first [ tauto | in_cases Hlogin ] ]
    | intros Hd; first [ tauto | eexists; eexists; cut_trace ] ].
Qed.

Lemma login_prompt_defaults_to_yes_witness :
  In (EInput PromptGhLogin (Ok (lit "")))
    (run_trace (Worlds.login_prompt ""))
  /\ (upper (strip (lit "")) <> lit "N" ->
      In (ERun cmd_gh_auth_login None
            (spawn (Worlds.login_prompt "") cmd_gh_auth_login))
        (run_trace (Worlds.login_prompt "")))
  /\ (~ In (ERun cmd_gh_auth_login None
              (spawn (Worlds.login_prompt "") cmd_gh_auth_login))
          (run_trace (Worlds.login_prompt ""))
      <-> strip (lit "") = lit "N" \/ strip (lit "") = lit "n")
  /\ (strip (lit "") = lit "N" \/ strip (lit "") = lit "n" ->
      exists pre post,
        run_trace (Worlds.login_prompt "")
        = pre
          ++ [EInput PromptGhLogin (Ok (lit "")); EPrint MPatHelp;
              EInput PromptToken
                (console_input (Worlds.login_prompt "") PromptToken)]
          ++ post).
Proof.
  assert (Hin : In (EInput PromptGhLogin (Ok (lit "")))
                  (run_trace (Worlds.login_prompt "")))
    by (vm_compute; in_list).
  split; [exact Hin|].
  exact (login_prompt_defaults_to_yes (Worlds.login_prompt "") (lit "") Hin).
Defined.

(** Answers at the login prompt, run to the end: the empty answer and
    "yes" log in through the helper (the helper then creates the
    repository of carol); "n" and " N " fall through to the token (the
    API then creates the repository of alice). *)
Example login_prompt_answers :
  username (run_session (Worlds.login_prompt "")) = VStr (lit "carol")
  /\ username (run_session (Worlds.login_prompt "yes")) = VStr (lit "carol")
  /\ username (run_session (Worlds.login_prompt "no")) = VStr (lit "carol")
  /\ username (run_session (Worlds.login_prompt "n")) = VStr (lit "alice")
  /\ username (run_session (Worlds.login_prompt " N ")) = VStr (lit "alice")
  /\ existsb is_gh_create (run_trace (Worlds.login_prompt "")) = true
  /\ existsb is_api_create (run_trace (Worlds.login_prompt "n")) = true.
Proof. repeat split; reflexivity. Qed.

(* ================================================================== *)
(** ** What holds around the two defects *)

Lemma auth_status_outcome (w : World) (b : bool) :
  result_of (check_gh_auth w) = Ok b ->
  is_auth_success
    (ERun cmd_gh_auth_status (Some 5) (spawn w cmd_gh_auth_status)) = b.
Proof.
  rewrite check_gh_auth_result.
  destruct (spawn w cmd_gh_auth_status) as [r|e].
  - intros [= <-]. reflexivity.
  - destruct (isinstance [TimeoutExpired] e); [|discriminate].
    intros [= <-]. reflexivity.
Qed.

Lemma login_outcome (w : World) (b : bool) :
  result_of (gh_login w) = Ok b ->
  is_auth_success
    (ERun cmd_gh_auth_login None (spawn w cmd_gh_auth_login)) = b.
Proof.
  rewrite gh_login_result.
  destruct (spawn w cmd_gh_auth_login) as [r|e].
  - intros [= <-]. reflexivity.
  - destruct (isinstance [CalledProcessError] e); [|discriminate].
    intros [= <-]. reflexivity.
Qed.

Ltac auth_outcome :=
  repeat match goal with
    | H : result_of (check_gh_auth _) = Ok _ |- _ =>
        progress rewrite (auth_status_outcome _ _ H)
    | H : result_of (gh_login _) = Ok _ |- _ =>
        progress rewrite (login_outcome _ _ H)
    end.

(** X17.  The half of C1 that holds: when the Repository Creator runs,
    exactly one of "the helper reported an authenticated session" and
    "a token is present" holds, and on the token path the username is
    not empty. *)
Lemma credential_exactly_one (w : World) :
  reaches_creation w = true ->
  xorb (helper_authenticated (resolve_trace w))
       (truthy (token (resolve_session w))) = true
  /\ (truthy (token (resolve_session w)) = true ->
      truthy (username (resolve_session w)) = true).
Proof.
  unfold helper_authenticated.
  run_script; explicit_trace; try discriminate; intros _;
    count is_auth_success; auth_outcome; cbn [orb];
    repeat match goal with
      | H : truthy ?v = _ |- _ => rewrite H
      end;
    split; (reflexivity || (intros; (assumption || discriminate))).
Qed.

(** X18.  The part of C4 that holds: an answer other than 201 whose body
    is a JSON object makes the run fail with an error line that carries
    the status code and the [message] field, or "未知错误" without
    one. *)
Lemma api_error_reports_status (w : World) h d t r fields :
  In (EPost url_user_repos h d t (Ok r)) (run_trace w) ->
  status_code r <> 201 ->
  json_result r = Ok (JObject fields) ->
  run_result w = Ok false
  /\ exists error,
      In (EPrint (MCreateFailed error)) (run_trace w)
      /\ contains error (of_Z (status_code r))
      /\ error
         = txt_create_failed ++ of_Z (status_code r) ++ lit "): "
           ++ py_str match dict_get fields (lit "message") with
                     | Some v => v
                     | None => VStr txt_unknown_error
                     end.
Proof.
  run_script; explicit_trace; intros Hin Hstatus Hjson; in_cases Hin;
    injection Hin as <- <- <- Hin;
    match goal with
    | H : result_of (create_repo_with_api _ _ _ _ _) = _ |- _ =>
        rewrite create_repo_with_api_result, Hin in H;
        apply Z.eqb_neq in Hstatus; rewrite Hstatus, Hjson in H;
        first [discriminate H | injection H as <- <- | injection H as <-]
    end;
    try discriminate.
  all: split; [reflexivity|].
  all: repeat match goal with
         | H : dict_get _ _ = _ |- _ => rewrite H in *; clear H
         end.
  all: eexists; split; [in_trace | split; [|reflexivity]].
  all: exists txt_create_failed; eexists; reflexivity.
Qed.

(* ================================================================== *)
(** ** Further properties of the script *)

(** *** [strip] as the script relies on it *)

Section Strip.

Lemma lstrip_suffix (s : pystr) :
  exists ws, s = ws ++ lstrip s /\ blank ws = true.
Proof.
  induction s as [|c s (ws & IH & Hws)]; simpl.
  - exists []. auto.
  - destruct (isspace c) eqn:E.
    + exists (c :: ws). simpl. rewrite E, Hws, <- IH. auto.
    + exists []. auto.
Qed.

Lemma lstrip_fixed (s : pystr) :
  (forall c rest, s = c :: rest -> isspace c = false) -> lstrip s = s.
Proof.
  destruct s as [|c s]; intros H; simpl; [reflexivity|].
  rewrite (H c s eq_refl). reflexivity.
Qed.

Lemma rstrip_prefix (s : pystr) :
  exists ws, s = rstrip s ++ ws /\ blank ws = true.
Proof.
  unfold rstrip. destruct (lstrip_suffix (rev s)) as (ws & H & Hws).
  exists (rev ws). split.
  - rewrite <- (rev_involutive s) at 1. rewrite H at 1. apply rev_app_distr.
  - rewrite blank_rev. exact Hws.
Qed.

Lemma rstrip_last (s init : pystr) (c : N) :
  rstrip s = init ++ [c] -> isspace c = false.
Proof.
  unfold rstrip. intros H.
  apply (f_equal (@rev N)) in H.
  rewrite rev_involutive, rev_app_distr in H. simpl in H.
  exact (lstrip_head _ _ _ H).
Qed.

Lemma strip_first (s rest : pystr) (c : N) :
  strip s = c :: rest -> isspace c = false.
Proof.
  unfold strip. intros H.
  destruct (rstrip_prefix (lstrip s)) as (ws & E & _).
  rewrite H in E. simpl in E. exact (lstrip_head _ _ _ E).
Qed.

Lemma strip_last (s init : pystr) (c : N) :
  strip s = init ++ [c] -> isspace c = false.
Proof. unfold strip. apply rstrip_last. Qed.

Lemma rstrip_fixed (s : pystr) :
  (forall init c, s = init ++ [c] -> isspace c = false) -> rstrip s = s.
Proof.
  intros H. unfold rstrip. rewrite lstrip_fixed.
  - apply rev_involutive.
  - intros c rest E. apply (H (rev rest) c).
    rewrite <- (rev_involutive s), E. reflexivity.
Qed.

Lemma strip_idempotent (s : pystr) : strip (strip s) = strip s.
Proof.
  unfold strip at 1.
  rewrite (lstrip_fixed (strip s)) by (intros c rest; apply strip_first).
  apply rstrip_fixed. intros init c. apply strip_last.
Qed.

End Strip.

(** X12.  The repository request [get_repo_info] returns always has a
    name that is not empty, neither starts nor ends with whitespace and
    is left unchanged by a second [strip]; its description is "1.0" and
    it is public. *)
Theorem repo_request_is_normalised (w : World) (info : RepoInfo) :
  result_of (get_repo_info w) = Ok (Some info) ->
  name info <> []
  /\ (forall c rest, name info = c :: rest -> isspace c = false)
  /\ (forall init c, name info = init ++ [c] -> isspace c = false)
  /\ strip (name info) = name info
  /\ description info = lit "1.0"
  /\ is_private info = false.
Proof.
  intros H. destruct (repo_info_from_prompt w info H) as (line & _ & Hne & ->).
  cbn [name description is_private]. repeat split.
  - exact Hne.
  - intros c rest. apply strip_first.
  - intros init c. apply strip_last.
  - apply strip_idempotent.
Qed.

Lemma repo_request_is_normalised_witness :
  result_of (get_repo_info Worlds.bob_created)
  = Ok (Some {| name := lit "proj"; description := lit "1.0";
                is_private := false |})
  /\ lit "proj" <> []
  /\ (forall c rest, lit "proj" = c :: rest -> isspace c = false)
  /\ (forall init c, lit "proj" = init ++ [c] -> isspace c = false)
  /\ strip (lit "proj") = lit "proj"
  /\ lit "1.0" = lit "1.0"
  /\ false = false.
Proof.
  assert (H : result_of (get_repo_info Worlds.bob_created)
              = Ok (Some {| name := lit "proj"; description := lit "1.0";
                            is_private := false |})) by reflexivity.
  split; [exact H|].
  exact (repo_request_is_normalised Worlds.bob_created _ H).
Defined.

(** *** [main] *)

Lemma uncaught_is_interrupt (e : exn) :
  isinstance [KeyboardInterrupt] e = false -> is_Exception e = true.
Proof.
  unfold isinstance, is_Exception. cbn [existsb].
  rewrite orb_false_r. intros ->. reflexivity.
Qed.

(** X1.  Whatever happens in the script, [main] prints the closing line
    and waits at the exit prompt as its last two events, and [main]
    returns normally unless that last [input] itself raises: no
    exception of the script escapes [main]. *)
Theorem main_always_reaches_exit_prompt (w : World) :
  (exists pre,
      main_trace w
      = pre ++ [EPrint MFooter;
                EInput PromptExit (console_input w PromptExit)])
  /\ main_result w
     = match console_input w PromptExit with
       | Ok _ => Ok tt
       | Raise e => Raise e
       end.
Proof.
  split.
  - rewrite main_trace_eq. eexists. rewrite !app_assoc. reflexivity.
  - unfold main_result, main.
    destruct (pyperclip_installed w);
      cbv beta iota zeta delta
        [bind ret print emit try_finally try_except find_clause except
         except_Exception];
      destruct (create w blank_session) as [[t s] [[|]|e]];
      cbv beta iota zeta delta [fst snd];
      try (destruct (isinstance [KeyboardInterrupt] e) eqn:E;
           [|rewrite (uncaught_is_interrupt e E)]);
      cbv beta iota; rewrite (static_input w PromptExit), input_result;
      destruct (console_input w PromptExit); reflexivity.
Qed.

Lemma prints_are_errors (m : msg) (errors : list msg) :
  Forall (fun m => level_of m = LError) errors ->
  In (EPrint m) (map EPrint errors) -> level_of m = LError.
Proof.
  intros Herr Hin. apply in_map_iff in Hin.
  destruct Hin as (m' & [= ->] & Hin).
  rewrite Forall_forall in Herr. exact (Herr m Hin).
Qed.

(** Membership of a printed line that does not carry the error tag in
    an explicit trace. *)
Ltac in_print_cases H :=
  lazymatch type of H with
  | In _ (map EPrint _ ++ _) =>
      apply in_app_or in H; destruct H as [H|H];
      [ exfalso;
        match goal with
        | Herr : Forall _ _ |- _ =>
            apply (prints_are_errors _ _ Herr) in H; discriminate H
        end
      | in_print_cases H ]
  | In _ (map EPrint _) =>
      exfalso;
      match goal with
      | Herr : Forall _ _ |- _ =>
          apply (prints_are_errors _ _ Herr) in H; discriminate H
      end
  | In _ (_ :: _) =>
      destruct H as [H|H]; [try discriminate H | in_print_cases H]
  | In _ [] => destruct H
  | _ => idtac
  end.

(** The lines [main] prints about the outcome are not printed by the
    script itself. *)
Lemma run_prints_no_outcome (w : World) :
  ~ In (EPrint MDone) (run_trace w) /\ ~ In (EPrint MCancelled) (run_trace w).
Proof.
  run_script; explicit_trace; split; intros H; in_print_cases H.
Qed.

(** Where a line of [main]'s trace can come from. *)
Lemma in_main_trace (w : World) (e : event) :
  In e (main_trace w) ->
  e = EPrint MNoPyperclip \/ e = EPrint MStartup \/ In e (run_trace w)
  \/ In e match run_result w with
          | Ok true => [EPrint MDone]
          | Ok false => []
          | Raise e =>
              if isinstance [KeyboardInterrupt] e then [EPrint MCancelled]
              else if is_Exception e then [EPrint (MUnexpected e)]
              else []
          end
  \/ e = EPrint MFooter
  \/ e = EInput PromptExit (console_input w PromptExit).
Proof.
  rewrite main_trace_eq. intros H.
  apply in_app_or in H. destruct H as [H|H].
  - destruct (pyperclip_installed w); [destruct H|].
    destruct H as [<-|[]]. auto.
  - cbn [app] in H. destruct H as [<-|H]; [auto|].
    apply in_app_or in H. destruct H as [H|H]; [auto|].
    apply in_app_or in H. destruct H as [H|H]; [auto 6|].
    destruct H as [<-|[<-|[]]]; auto 7.
Qed.

Lemma interrupt_class (e : exn) :
  isinstance [KeyboardInterrupt] e = true <-> exn_cls e = KeyboardInterrupt.
Proof.
  destruct e as [c t]. unfold isinstance. cbn. rewrite orb_false_r.
  destruct c; split; intros H; first [reflexivity | discriminate H].
Qed.

Lemma main_reports_interrupt (w : World) (e : exn) :
  run_result w = Raise e -> exn_cls e = KeyboardInterrupt ->
  In (EPrint MCancelled) (main_trace w).
Proof.
  intros He Hk. apply interrupt_class in Hk.
  rewrite main_trace_eq, He, Hk.
  apply in_or_app. right. apply in_cons. apply in_or_app. right.
  apply in_or_app. left. apply in_eq.
Qed.

(** X2.  [main] prints the completion banner exactly when
    [create_repository] returned [True]. *)
Theorem done_banner_iff_success (w : World) :
  In (EPrint MDone) (main_trace w) <-> run_result w = Ok true.
Proof.
  split; [|apply main_reports_success].
  intros H. apply in_main_trace in H.
  destruct (run_prints_no_outcome w) as [Hdone _].
  destruct H as [H|[H|[H|[H|[H|H]]]]];
    try discriminate H; try contradiction.
  destruct (run_result w) as [[|]|e]; [reflexivity|destruct H|].
  destruct (isinstance [KeyboardInterrupt] e);
    [|destruct (is_Exception e)];
    cbn [In] in H; intuition discriminate.
Qed.

(** X3.  [main] prints the cancellation line exactly when the script
    was interrupted ([KeyboardInterrupt]); any other exception of the
    script is reported by the unexpected-error line that carries the
    exception. *)
Theorem interrupt_is_reported_as_cancel (w : World) :
  (In (EPrint MCancelled) (main_trace w)
   <-> exists e, run_result w = Raise e /\ exn_cls e = KeyboardInterrupt)
  /\ (forall e,
        run_result w = Raise e -> exn_cls e <> KeyboardInterrupt ->
        In (EPrint (MUnexpected e)) (main_trace w)).
Proof.
  destruct (run_prints_no_outcome w) as [_ Hcancel].
  split; [split|].
  - intros H. apply in_main_trace in H.
    destruct H as [H|[H|[H|[H|[H|H]]]]];
      try discriminate H; try contradiction.
    destruct (run_result w) as [[|]|e];
      [destruct H as [H|[]]; discriminate H | destruct H |].
    exists e. split; [reflexivity|]. apply interrupt_class.
    destruct (isinstance [KeyboardInterrupt] e); [reflexivity|].
    destruct (is_Exception e); cbn [In] in H; intuition discriminate.
  - intros (e & He & Hk). exact (main_reports_interrupt w e He Hk).
  - intros e He Hk.
    destruct (isinstance [KeyboardInterrupt] e) eqn:E;
      [apply interrupt_class in E; contradiction|].
    rewrite main_trace_eq, He, E, (uncaught_is_interrupt e E).
    apply in_or_app. right. apply in_cons. apply in_or_app. right.
    apply in_or_app. left. apply in_eq.
Qed.

(** *** What a run does and never does *)

Lemma filter_prints (f : event -> bool) (ms : list msg) :
  (forall m, f (EPrint m) = false) -> filter f (map EPrint ms) = [].
Proof.
  intros H. induction ms as [|m ms IH]; simpl; [reflexivity|].
  rewrite H. exact IH.
Qed.

Lemma filter_skip {A} (f : A -> bool) (x : A) (l : list A) :
  f x = false -> filter f (x :: l) = filter f l.
Proof. intros H. simpl. rewrite H. reflexivity. Qed.

Lemma filter_keep {A} (f : A -> bool) (x : A) (l : list A) :
  f x = true -> filter f (x :: l) = x :: filter f l.
Proof. intros H. simpl. rewrite H. reflexivity. Qed.

(** Filter an explicit trace, one event at a time. *)
Ltac tally f :=
  repeat match goal with
    | |- context [filter f (?e :: ?l)] =>
        first [ rewrite (filter_skip f e l) by (vm_compute; reflexivity)
              | rewrite (filter_keep f e l) by (vm_compute; reflexivity) ]
    | |- context [filter f (map EPrint ?ms ++ ?l)] =>
        rewrite (filter_app f (map EPrint ms) l),
          (filter_prints f ms) by reflexivity;
        cbn [app]
    | |- context [filter f (map EPrint ?ms)] =>
        rewrite (filter_prints f ms) by reflexivity
    | |- context [filter f []] => change (filter f []) with (@nil event)
    end.

(** X4.  A run makes at most one creation call, and never one on each
    transport: nothing is retried and a failed transport is not followed
    by the other. *)
Theorem at_most_one_creation_call (w : World) :
  (List.length (creation_calls (run_trace w)) <= 1)%nat
  /\ (existsb is_gh_create (run_trace w) = true ->
      existsb is_api_create (run_trace w) = false).
Proof.
  unfold creation_calls.
  run_script; explicit_trace; tally is_creation_call;
    count is_gh_create; count is_api_create;
    (split; [cbn [List.length]; lia | intros H; first [reflexivity | discriminate H]]).
Qed.

(** X13.  The script announces success only after a creation call that
    reported success: the line "仓库创建成功!" is printed exactly in the
    runs with a successful creation call, and [create_repository]
    returns [True] only in such runs. *)
Theorem success_needs_successful_creation (w : World) :
  (In (EPrint MCreated) (run_trace w) <-> creation_succeeds w)
  /\ (run_result w = Ok true -> creation_succeeds w).
Proof.
  unfold creation_succeeds.
  run_script; explicit_trace; count successful_create; creation_outcome;
    cbn [orb]; (split; [split|]); intros H;
    first [ reflexivity | discriminate H | solve [in_trace]
          | solve [in_print_cases H] ].
Qed.

(** X14.  When [create_repository] returns [False], the last thing the
    run did was to print a line with the error tag. *)
Theorem failure_is_explained (w : World) :
  run_result w = Ok false ->
  exists pre m,
    run_trace w = pre ++ [EPrint m] /\ level_of m = LError.
Proof.
  run_script; explicit_trace; intros H; try discriminate H;
    eexists; eexists; (split; [cut_trace | reflexivity]).
Qed.

Lemma failure_is_explained_witness :
  run_result Worlds.no_token = Ok false
  /\ exists pre m,
      run_trace Worlds.no_token = pre ++ [EPrint m]
      /\ level_of m = LError.
Proof.
  assert (H : run_result Worlds.no_token = Ok false) by reflexivity.
  split; [exact H|].
  exact (failure_is_explained Worlds.no_token H).
Defined.

(** What [get_token_from_input] can return. *)
Lemma token_none_or_typed (w : World) (v : pyval) :
  result_of (get_token_from_input w) = Ok v ->
  (v = VNone /\ truthy v = false)
  \/ (exists line,
         console_input w PromptToken = Ok line
         /\ eqb (strip line) [] = false
         /\ v = VStr (strip line)
         /\ truthy v = true).
Proof.
  rewrite get_token_from_input_result.
  destruct (console_input w PromptToken) as [line|e]; [|discriminate].
  destruct (eqb (strip line) []) eqn:E; intros [= <-].
  - left. auto.
  - right. exists line. cbn. rewrite E. auto.
Qed.

Ltac token_cases :=
  match goal with
  | H : result_of (get_token_from_input _) = Ok ?v |- _ =>
      destruct (token_none_or_typed _ _ H)
        as [[-> ?] | (?line & ?Hline & ?Hne & -> & ?)]
  end.

(** X5.  When credential resolution fails ([setup_auth] returns
    [False]) the run ends there: nothing is asked, spawned or sent
    afterwards.  Either no token was given and the last line says that
    no authentication is configured, or the token did not yield a
    username and the last line says that the token is not valid. *)
Theorem failed_resolution_ends_run (w : World) :
  resolve_result w = Ok false ->
  run w = resolve w
  /\ ((token (resolve_session w) = VNone
       /\ exists pre, resolve_trace w = pre ++ [EPrint MNoAuth])
      \/ (truthy (token (resolve_session w)) = true
          /\ truthy (username (resolve_session w)) = false
          /\ exists pre, resolve_trace w = pre ++ [EPrint MTokenInvalid])).
Proof.
  run_script; explicit_trace; intros H; try discriminate H;
    (split; [reflexivity|]); token_cases; try congruence;
    first
      [ left; split; [reflexivity | eexists; cut_trace]
      | right; split; [assumption|]; split;
        [assumption | eexists; cut_trace] ].
Qed.

Lemma failed_resolution_ends_run_witness :
  resolve_result Worlds.no_token = Ok false
  /\ run Worlds.no_token = resolve Worlds.no_token
  /\ ((token (resolve_session Worlds.no_token) = VNone
       /\ exists pre,
            resolve_trace Worlds.no_token = pre ++ [EPrint MNoAuth])
      \/ (truthy (token (resolve_session Worlds.no_token)) = true
          /\ truthy (username (resolve_session Worlds.no_token)) = false
          /\ exists pre,
               resolve_trace Worlds.no_token
               = pre ++ [EPrint MTokenInvalid])).
Proof.
  assert (H : resolve_result Worlds.no_token = Ok false) by reflexivity.
  split; [exact H|].
  exact (failed_resolution_ends_run Worlds.no_token H).
Defined.

Lemma blank_token_rejected (w : World) (line : pystr) :
  console_input w PromptToken = Ok line -> blank line = true ->
  result_of (get_token_from_input w) = Ok VNone.
Proof.
  intros Hline Hblank. rewrite get_token_from_input_result, Hline.
  apply strip_nil_blank in Hblank. rewrite Hblank. reflexivity.
Qed.

(** X6.  When the token prompt is answered by an empty or
    whitespace-only line, no HTTPS request is made at all, no creation
    call is made, no token is stored, and the run fails with the line
    "未配置任何认证方式". *)
Theorem blank_token_makes_no_request (w : World) (line : pystr) :
  In (EInput PromptToken (Ok line)) (run_trace w) ->
  blank line = true ->
  existsb is_http_call (run_trace w) = false
  /\ existsb is_creation_call (run_trace w) = false
  /\ token (run_session w) = VNone
  /\ In (EPrint MNoAuth) (run_trace w)
  /\ run_result w = Ok false.
Proof.
  run_script; explicit_trace; intros Hin Hblank; in_cases Hin;
    injection Hin as Hin;
    pose proof (blank_token_rejected w line Hin Hblank) as Hnone;
    try congruence;
    try (match goal with
         | Hv : result_of (get_token_from_input _) = Ok ?v,
           Ht : truthy ?v = true |- _ =>
             assert (v = VNone) by congruence; subst v; discriminate Ht
         end).
  all: count is_http_call; count is_creation_call;
    repeat split; first [reflexivity | congruence | solve [in_trace]].
Qed.

Lemma blank_token_makes_no_request_witness :
  (In (EInput PromptToken (Ok [])) (run_trace Worlds.no_token)
   /\ blank [] = true)
  /\ existsb is_http_call (run_trace Worlds.no_token) = false
  /\ existsb is_creation_call (run_trace Worlds.no_token) = false
  /\ token (run_session Worlds.no_token) = VNone
  /\ In (EPrint MNoAuth) (run_trace Worlds.no_token)
  /\ run_result Worlds.no_token = Ok false.
Proof.
  assert (Hin : In (EInput PromptToken (Ok []))
                  (run_trace Worlds.no_token))
    by (vm_compute; in_list).
  assert (Hblank : blank [] = true) by reflexivity.
  split; [split; assumption|].
  exact (blank_token_makes_no_request Worlds.no_token [] Hin Hblank).
Defined.

(** X15.  The token kept in the object is either [None] or the stripped,
    non-empty answer to the token prompt: an empty or unstripped token
    is never stored. *)
Theorem stored_token_is_typed (w : World) :
  token (run_session w) = VNone
  \/ exists line,
       console_input w PromptToken = Ok line
       /\ eqb (strip line) [] = false
       /\ token (run_session w) = VStr (strip line).
Proof.
  run_script; try token_cases; try congruence;
    first [ left; reflexivity | right; exists line; auto ].
Qed.

(** X16.  On the helper path (credentials resolved without a token) the
    username is the stripped standard output of [gh api user --jq
    .login] when that command exits with status zero, and [None] when it
    exits with another status or times out. *)
Theorem helper_username_is_gh_output (w : World) :
  resolve_result w = Ok true ->
  token (resolve_session w) = VNone ->
  username (resolve_session w)
  = match spawn w cmd_gh_api_user with
    | Ok r => if returncode r =? 0 then VStr (strip (stdout r)) else VNone
    | Raise _ => VNone
    end.
Proof.
  run_script; intros H Htok; try discriminate H; try token_cases;
    try congruence;
    match goal with
    | Hu : result_of (get_username_from_gh _) = Ok _,
      Hs : spawn _ cmd_gh_api_user = _ |- _ =>
        rewrite get_username_from_gh_result, Hs in Hu;
        repeat match type of Hu with
          | context [if ?b then _ else _] => destruct b eqn:?
          end;
        congruence
    end.
Qed.

Lemma helper_username_is_gh_output_witness :
  (resolve_result Worlds.bob_created = Ok true
   /\ token (resolve_session Worlds.bob_created) = VNone)
  /\ username (resolve_session Worlds.bob_created)
     = match spawn Worlds.bob_created cmd_gh_api_user with
       | Ok r => if returncode r =? 0 then VStr (strip (stdout r)) else VNone
       | Raise _ => VNone
       end.
Proof.
  assert (H1 : resolve_result Worlds.bob_created = Ok true) by reflexivity.
  assert (H2 : token (resolve_session Worlds.bob_created) = VNone)
    by reflexivity.
  split; [split; assumption|].
  exact (helper_username_is_gh_output Worlds.bob_created H1 H2).
Defined.

(** X19.  An [input] that raises (the user interrupts a prompt, or the
    console is closed) ends the script at that prompt: the exception
    leaves [create_repository], nothing is printed, asked, spawned or
    sent afterwards, and an interrupt is reported by [main] as a
    cancellation. *)
Theorem prompt_failure_ends_run (w : World) (p : prompt) (e : exn) :
  In (EInput p (Raise e)) (run_trace w) ->
  run_result w = Raise e
  /\ (exists pre, run_trace w = pre ++ [EInput p (Raise e)])
  /\ (exn_cls e = KeyboardInterrupt ->
      In (EPrint MCancelled) (main_trace w)).
Proof.
  intros Hin.
  assert (Hrun : run_result w = Raise e
                 /\ exists pre, run_trace w = pre ++ [EInput p (Raise e)]).
  { revert Hin.
    run_script; explicit_trace; intros Hin; in_cases Hin;
      injection Hin as <- Hin;
      repeat match goal with
        | H : result_of (input _ _) = _ |- _ =>
            rewrite input_result in H
        | H : result_of (get_token_from_input _) = _ |- _ =>
            rewrite get_token_from_input_result in H
        | H : result_of (get_repo_info _) = _ |- _ =>
            rewrite get_repo_info_result in H
        end;
      rewrite Hin in *; try discriminate;
      repeat match goal with
        | H : Raise _ = Raise _ |- _ => injection H as <-
        end;
      (split; [reflexivity | eexists; cut_trace]). }
  destruct Hrun as [Hres Hpre]. repeat split; try assumption.
  intros Hk. exact (main_reports_interrupt w e Hres Hk).
Qed.

Lemma prompt_failure_ends_run_witness :
  In (EInput PromptToken (Raise (Exn KeyboardInterrupt [])))
    (run_trace Worlds.interrupted)
  /\ run_result Worlds.interrupted = Raise (Exn KeyboardInterrupt [])
  /\ (exists pre,
         run_trace Worlds.interrupted
         = pre ++ [EInput PromptToken (Raise (Exn KeyboardInterrupt []))])
  /\ (exn_cls (Exn KeyboardInterrupt []) = KeyboardInterrupt ->
      In (EPrint MCancelled) (main_trace Worlds.interrupted)).
Proof.
  assert (Hin : In (EInput PromptToken (Raise (Exn KeyboardInterrupt [])))
                  (run_trace Worlds.interrupted))
    by (vm_compute; in_list).
  split; [exact Hin|].
  exact (prompt_failure_ends_run Worlds.interrupted PromptToken
           (Exn KeyboardInterrupt []) Hin).
Defined.

(** Split on the events of an explicit trace that may be the one in
    [H], keeping what the equality says. *)
Ltac in_event_cases H :=
  lazymatch type of H with
  | In _ (map EPrint _ ++ _) =>
      apply in_app_or in H; destruct H as [H|H];
      [ exfalso; revert H; apply not_in_prints; discriminate
      | in_event_cases H ]
  | In _ (map EPrint _) =>
      exfalso; revert H; apply not_in_prints; discriminate
  | In _ (_ :: _) =>
      destruct H as [H|H];
      [ first [discriminate H | idtac] | in_event_cases H ]
  | In _ [] => destruct H
  | _ => idtac
  end.

(** X8.  When [gh repo create] exits with a status other than zero, the
    run fails, the error line carries the helper's standard error text
    as it is, the success line is not printed and the API transport is
    not tried. *)
Theorem helper_failure_reports_stderr (w : World) argv timeout r :
  In (ERun argv timeout (Ok r)) (run_trace w) ->
  is_gh_create (ERun argv timeout (Ok r)) = true ->
  returncode r <> 0 ->
  run_result w = Ok false
  /\ (exists pre,
         run_trace w
         = pre ++ [ERun argv timeout (Ok r);
                   EPrint (MCreateFailed (stderr r))])
  /\ existsb is_api_create (run_trace w) = false.
Proof.
  run_script; explicit_trace; intros Hin Hcreate Hrc;
    in_event_cases Hin; injection Hin as <- <- Hin;
    try (vm_compute in Hcreate; discriminate Hcreate);
    match goal with
    | H : result_of (create_repo_with_gh _ _ _ _) = _ |- _ =>
        rewrite create_repo_with_gh_result, Hin in H;
        apply Z.eqb_neq in Hrc; rewrite Hrc in H;
        first [discriminate H | injection H as <- <- | injection H as <-]
    end;
    try discriminate;
    rewrite Hin; count is_api_create;
    (split; [reflexivity|]); (split; [eexists; cut_trace | reflexivity]).
Qed.

Lemma helper_failure_reports_stderr_witness :
  (In (ERun [lit "gh"; lit "repo"; lit "create"; lit "proj";
             lit "--public"; lit "--description"; lit "1.0"] (Some 30)
         (Worlds.exited 1 "" "GraphQL: Name already exists on this account"))
     (run_trace Worlds.bob_name_taken)
   /\ 1 <> 0)
  /\ run_result Worlds.bob_name_taken = Ok false
  /\ (exists pre,
         run_trace Worlds.bob_name_taken
         = pre ++ [ERun [lit "gh"; lit "repo"; lit "create"; lit "proj";
                         lit "--public"; lit "--description"; lit "1.0"]
                     (Some 30)
                     (Worlds.exited 1 ""
                        "GraphQL: Name already exists on this account");
                   EPrint (MCreateFailed
                             (lit "GraphQL: Name already exists on this account"))])
  /\ existsb is_api_create (run_trace Worlds.bob_name_taken) = false.
Proof.
  assert (Hin : In (ERun [lit "gh"; lit "repo"; lit "create"; lit "proj";
                          lit "--public"; lit "--description"; lit "1.0"]
                      (Some 30)
                      (Worlds.exited 1 ""
                         "GraphQL: Name already exists on this account"))
                  (run_trace Worlds.bob_name_taken))
    by (vm_compute; in_list).
  assert (Hrc : 1 <> 0) by lia.
  split; [split; assumption|].
  exact (helper_failure_reports_stderr Worlds.bob_name_taken _ _
           {| returncode := 1; stdout := lit "";
              stderr := lit "GraphQL: Name already exists on this account" |}
           Hin eq_refl Hrc).
Defined.

(** X9.  When [gh repo create] does not finish within its 30 seconds,
    the run fails with the error line "命令执行超时" (the command timed
    out), and the API transport is not tried. *)
Theorem helper_timeout_is_reported (w : World) argv timeout e :
  In (ERun argv timeout (Raise e)) (run_trace w) ->
  is_gh_create (ERun argv timeout (Raise e)) = true ->
  exn_cls e = TimeoutExpired ->
  run_result w = Ok false
  /\ (exists pre,
         run_trace w
         = pre ++ [ERun argv timeout (Raise e);
                   EPrint (MCreateFailed txt_timed_out)])
  /\ existsb is_api_create (run_trace w) = false.
Proof.
  run_script; explicit_trace; intros Hin Hcreate Hclass;
    in_event_cases Hin; injection Hin as <- <- Hin;
    try (vm_compute in Hcreate; discriminate Hcreate);
    match goal with
    | H : result_of (create_repo_with_gh _ _ _ _) = _ |- _ =>
        rewrite create_repo_with_gh_result, Hin in H;
        unfold isinstance in H; rewrite Hclass in H; cbn in H;
        first [discriminate H | injection H as <- <- | injection H as <-]
    end;
    try discriminate;
    rewrite Hin; count is_api_create;
    (split; [reflexivity|]); (split; [eexists; cut_trace | reflexivity]).
Qed.

Lemma helper_timeout_is_reported_witness :
  In (ERun [lit "gh"; lit "repo"; lit "create"; lit "proj";
            lit "--public"; lit "--description"; lit "1.0"] (Some 30)
        (Raise (Exn TimeoutExpired (lit "timed out after 30 seconds"))))
    (run_trace Worlds.bob_timeout)
  /\ run_result Worlds.bob_timeout = Ok false
  /\ (exists pre,
         run_trace Worlds.bob_timeout
         = pre ++ [ERun [lit "gh"; lit "repo"; lit "create"; lit "proj";
                         lit "--public"; lit "--description"; lit "1.0"]
                     (Some 30)
                     (Raise (Exn TimeoutExpired
                               (lit "timed out after 30 seconds")));
                   EPrint (MCreateFailed txt_timed_out)])
  /\ existsb is_api_create (run_trace Worlds.bob_timeout) = false.
Proof.
  assert (Hin : In (ERun [lit "gh"; lit "repo"; lit "create"; lit "proj";
                          lit "--public"; lit "--description"; lit "1.0"]
                      (Some 30)
                      (Raise (Exn TimeoutExpired
                                (lit "timed out after 30 seconds"))))
                  (run_trace Worlds.bob_timeout))
    by (vm_compute; in_list).
  split; [exact Hin|].
  exact (helper_timeout_is_reported Worlds.bob_timeout _ _ _ Hin
           eq_refl eq_refl).
Defined.

(** X22.  Whenever the helper-CLI transport is used, the command is
    [gh repo create NAME --public --description 1.0] with a timeout of
    30 seconds, where NAME is the stripped, non-empty answer to the
    repository name prompt; the helper is then available and no token
    is stored. *)
Theorem helper_create_command (w : World) argv timeout o :
  In (ERun argv timeout o) (run_trace w) ->
  is_gh_create (ERun argv timeout o) = true ->
  exists line,
    console_input w PromptRepoName = Ok line
    /\ eqb (strip line) [] = false
    /\ argv = [lit "gh"; lit "repo"; lit "create"; strip line;
               lit "--public"; lit "--description"; lit "1.0"]
    /\ timeout = Some 30
    /\ o = spawn w argv
    /\ use_gh_cli (run_session w) = true
    /\ token (run_session w) = VNone.
Proof.
  run_script; explicit_trace; intros Hin Hcreate;
    in_event_cases Hin; injection Hin as <- <- <-;
    try (vm_compute in Hcreate; discriminate Hcreate);
    match goal with
    | H : result_of (get_repo_info _) = Ok (Some _) |- _ =>
        destruct (repo_info_from_prompt _ _ H) as (line & Hline & Hne & ->)
    end;
    exists line; apply eqb_neq in Hne; repeat split;
    first [assumption | reflexivity | exfalso; congruence].
Qed.

Lemma helper_create_command_witness :
  In (ERun [lit "gh"; lit "repo"; lit "create"; lit "proj";
            lit "--public"; lit "--description"; lit "1.0"] (Some 30)
        (Worlds.exited 0 "" ""))
    (run_trace Worlds.bob_created)
  /\ exists line,
      console_input Worlds.bob_created PromptRepoName = Ok line
      /\ eqb (strip line) [] = false
      /\ [lit "gh"; lit "repo"; lit "create"; lit "proj";
          lit "--public"; lit "--description"; lit "1.0"]
         = [lit "gh"; lit "repo"; lit "create"; strip line;
            lit "--public"; lit "--description"; lit "1.0"]
      /\ Some 30 = Some 30
      /\ Worlds.exited 0 "" ""
         = spawn Worlds.bob_created
             [lit "gh"; lit "repo"; lit "create"; lit "proj";
              lit "--public"; lit "--description"; lit "1.0"]
      /\ use_gh_cli (run_session Worlds.bob_created) = true
      /\ token (run_session Worlds.bob_created) = VNone.
Proof.
  assert (Hin : In (ERun [lit "gh"; lit "repo"; lit "create"; lit "proj";
                          lit "--public"; lit "--description"; lit "1.0"]
                      (Some 30) (Worlds.exited 0 "" ""))
                  (run_trace Worlds.bob_created))
    by (vm_compute; in_list).
  split; [exact Hin|].
  exact (helper_create_command Worlds.bob_created _ _ _ Hin eq_refl).
Defined.

(** X7.  When [gh auth login] exits with a status other than zero, the
    script prints that the login failed and goes on to the token
    prompt; the helper is not invoked again in that run, not even to
    create the repository. *)
Theorem failed_login_falls_back_to_token (w : World) r :
  In (ERun cmd_gh_auth_login None (Ok r)) (run_trace w) ->
  returncode r <> 0 ->
  exists pre post,
    run_trace w
    = pre
      ++ [ERun cmd_gh_auth_login None (Ok r); EPrint MGhLoginFailed;
          EPrint MPatHelp;
          EInput PromptToken (console_input w PromptToken)]
      ++ post
    /\ existsb is_helper_call post = false.
Proof.
  run_script; explicit_trace; intros Hin Hrc;
    in_event_cases Hin; injection Hin as Hin;
    match goal with
    | H : result_of (gh_login _) = _ |- _ =>
        rewrite gh_login_result, Hin in H;
        apply Z.eqb_neq in Hrc; rewrite Hrc in H;
        first [discriminate H | injection H as <- | idtac]
    end;
    try discriminate; try (exfalso; congruence);
    rewrite Hin; eexists; eexists;
    (split; [cut_trace | count is_helper_call; reflexivity]).
Qed.

Lemma failed_login_falls_back_to_token_witness :
  (In (ERun cmd_gh_auth_login None
         (Worlds.exited 1 "" "authentication failed"))
     (run_trace Worlds.login_fails)
   /\ 1 <> 0)
  /\ exists pre post,
      run_trace Worlds.login_fails
      = pre
        ++ [ERun cmd_gh_auth_login None
              (Worlds.exited 1 "" "authentication failed");
            EPrint MGhLoginFailed; EPrint MPatHelp;
            EInput PromptToken
              (console_input Worlds.login_fails PromptToken)]
        ++ post
      /\ existsb is_helper_call post = false.
Proof.
  assert (Hin : In (ERun cmd_gh_auth_login None
                      (Worlds.exited 1 "" "authentication failed"))
                  (run_trace Worlds.login_fails))
    by (vm_compute; in_list).
  assert (Hrc : 1 <> 0) by lia.
  split; [split; assumption|].
  exact (failed_login_falls_back_to_token Worlds.login_fails
           {| returncode := 1; stdout := lit "";
              stderr := lit "authentication failed" |} Hin Hrc).
Defined.

(** X10.  Every POST the script sends goes to /user/repos with a timeout
    of 30 seconds, carries the stripped, non-empty token the user typed
    in its Authorization header, and has the body name (the stripped,
    non-empty answer to the name prompt), private false, auto_init
    false, description "1.0". *)
Theorem api_request_shape (w : World) url headers body timeout o :
  In (EPost url headers body timeout o) (run_trace w) ->
  exists token_line name_line,
    console_input w PromptToken = Ok token_line
    /\ eqb (strip token_line) [] = false
    /\ console_input w PromptRepoName = Ok name_line
    /\ eqb (strip name_line) [] = false
    /\ url = url_user_repos
    /\ headers
       = [ (lit "Authorization",
            VStr (lit "token " ++ strip token_line));
           (lit "Accept", VStr (lit "application/vnd.github.v3+json")) ]
    /\ body
       = [ (lit "name", VStr (strip name_line));
           (lit "private", VBool false);
           (lit "auto_init", VBool false);
           (lit "description", VStr (lit "1.0")) ]
    /\ timeout = 30
    /\ o = http_post w url headers body.
Proof.
  run_script; explicit_trace; intros Hin;
    in_event_cases Hin; injection Hin as <- <- <- <- <-;
    try (exfalso; congruence);
    token_cases; try (exfalso; congruence);
    match goal with
    | H : result_of (get_repo_info _) = Ok (Some _) |- _ =>
        destruct (repo_info_from_prompt _ _ H)
          as (name_line & Hname & Hnn & ->)
    end;
    apply eqb_neq in Hnn;
    exists line, name_line; repeat split;
    first [assumption | reflexivity].
Qed.

Lemma api_request_shape_witness :
  In (EPost url_user_repos (api_headers (VStr (lit "abc123")))
        [ (lit "name", VStr (lit "demo"));
          (lit "private", VBool false);
          (lit "auto_init", VBool false);
          (lit "description", VStr (lit "1.0")) ]
        30 (Worlds.responded 201 []))
    (run_trace Worlds.alice_created)
  /\ exists token_line name_line,
      console_input Worlds.alice_created PromptToken = Ok token_line
      /\ eqb (strip token_line) [] = false
      /\ console_input Worlds.alice_created PromptRepoName = Ok name_line
      /\ eqb (strip name_line) [] = false
      /\ url_user_repos = url_user_repos
      /\ api_headers (VStr (lit "abc123"))
         = [ (lit "Authorization",
              VStr (lit "token " ++ strip token_line));
             (lit "Accept", VStr (lit "application/vnd.github.v3+json")) ]
      /\ [ (lit "name", VStr (lit "demo"));
           (lit "private", VBool false);
           (lit "auto_init", VBool false);
           (lit "description", VStr (lit "1.0")) ]
         = [ (lit "name", VStr (strip name_line));
             (lit "private", VBool false);
             (lit "auto_init", VBool false);
             (lit "description", VStr (lit "1.0")) ]
      /\ 30 = 30
      /\ Worlds.responded 201 []
         = http_post Worlds.alice_created url_user_repos
             (api_headers (VStr (lit "abc123")))
             [ (lit "name", VStr (lit "demo"));
               (lit "private", VBool false);
               (lit "auto_init", VBool false);
               (lit "description", VStr (lit "1.0")) ].
Proof.
  assert (Hin : In (EPost url_user_repos
                      (api_headers (VStr (lit "abc123")))
                      [ (lit "name", VStr (lit "demo"));
                        (lit "private", VBool false);
                        (lit "auto_init", VBool false);
                        (lit "description", VStr (lit "1.0")) ]
                      30 (Worlds.responded 201 []))
                  (run_trace Worlds.alice_created))
    by (vm_compute; in_list).
  split; [exact Hin|].
  exact (api_request_shape Worlds.alice_created _ _ _ _ _ Hin).
Defined.

(** X11.  Every GET the script sends goes to /user with a timeout of 10
    seconds and carries the stripped, non-empty token the user typed in
    its Authorization header: the identity endpoint is never asked
    without a token. *)
Theorem identity_request_shape (w : World) url headers timeout o :
  In (EGet url headers timeout o) (run_trace w) ->
  exists token_line,
    console_input w PromptToken = Ok token_line
    /\ eqb (strip token_line) [] = false
    /\ url = url_user
    /\ headers
       = [ (lit "Authorization",
            VStr (lit "token " ++ strip token_line));
           (lit "Accept", VStr (lit "application/vnd.github.v3+json")) ]
    /\ timeout = 10
    /\ o = http_get w url headers.
Proof.
  run_script; explicit_trace; intros Hin;
    in_event_cases Hin; injection Hin as <- <- <- <-;
    try (exfalso; congruence);
    token_cases; try (exfalso; congruence);
    exists line; repeat split; first [assumption | reflexivity].
Qed.

Lemma identity_request_shape_witness :
  In (EGet url_user (api_headers (VStr (lit "abc123"))) 10
        (Worlds.responded 200 [(lit "login", VStr (lit "alice"))]))
    (run_trace Worlds.alice_created)
  /\ exists token_line,
      console_input Worlds.alice_created PromptToken = Ok token_line
      /\ eqb (strip token_line) [] = false
      /\ url_user = url_user
      /\ api_headers (VStr (lit "abc123"))
         = [ (lit "Authorization",
              VStr (lit "token " ++ strip token_line));
             (lit "Accept", VStr (lit "application/vnd.github.v3+json")) ]
      /\ 10 = 10
      /\ Worlds.responded 200 [(lit "login", VStr (lit "alice"))]
         = http_get Worlds.alice_created url_user
             (api_headers (VStr (lit "abc123"))).
Proof.
  assert (Hin : In (EGet url_user (api_headers (VStr (lit "abc123"))) 10
                      (Worlds.responded 200
                         [(lit "login", VStr (lit "alice"))]))
                  (run_trace Worlds.alice_created))
    by (vm_compute; in_list).
  split; [exact Hin|].
  exact (identity_request_shape Worlds.alice_created _ _ _ _ Hin).
Defined.

Ltac check_all f :=
  repeat first [progress cbn [forallb] | rewrite forallb_app];
  rewrite ?(forallb_prints f) by reflexivity;
  classify f; cbn [andb].

(** X20.  Every external call of a run is one the script is written to
    make: each subprocess is a [gh] command with a timeout of at most 30
    seconds, except the interactive [gh auth login] which has none; the
    only HTTPS calls are a GET of /user with a timeout of 10 seconds and
    a POST to /user/repos with a timeout of 30 seconds. *)
Theorem calls_are_expected (w : World) :
  forallb expected_call (run_trace w) = true.
Proof.
  run_script; explicit_trace; check_all expected_call; reflexivity.
Qed.

(** X21.  When [gh auth status] exits with status zero the run asks for
    no credentials: neither the login prompt nor the token prompt is
    shown, [gh auth login] is not started, no HTTPS call is made and no
    token is stored. *)
Theorem authenticated_helper_needs_no_credentials (w : World) r :
  In (ERun cmd_gh_auth_status (Some 5) (Ok r)) (run_trace w) ->
  returncode r = 0 ->
  (forall o, ~ In (EInput PromptGhLogin o) (run_trace w))
  /\ (forall o, ~ In (EInput PromptToken o) (run_trace w))
  /\ (forall o, ~ In (ERun cmd_gh_auth_login None o) (run_trace w))
  /\ existsb is_http_call (run_trace w) = false
  /\ token (run_session w) = VNone.
Proof.
  run_script; explicit_trace; intros Hin Hrc;
    in_event_cases Hin; injection Hin as Hin;
    match goal with
    | H : result_of (check_gh_auth _) = _ |- _ =>
        rewrite check_gh_auth_result, Hin in H;
        apply Z.eqb_eq in Hrc; rewrite Hrc in H;
        first [discriminate H | idtac]
    end;
    (split; [intros o Ho; in_event_cases Ho|]);
    (split; [intros o Ho; in_event_cases Ho|]);
    (split; [intros o Ho; in_event_cases Ho|]);
    (split; [count is_http_call; reflexivity | reflexivity]).
Qed.

Lemma authenticated_helper_needs_no_credentials_witness :
  (In (ERun cmd_gh_auth_status (Some 5) (Worlds.exited 0 "" ""))
     (run_trace Worlds.bob_created)
   /\ 0 = 0)
  /\ (forall o, ~ In (EInput PromptGhLogin o) (run_trace Worlds.bob_created))
  /\ (forall o, ~ In (EInput PromptToken o) (run_trace Worlds.bob_created))
  /\ (forall o,
        ~ In (ERun cmd_gh_auth_login None o) (run_trace Worlds.bob_created))
  /\ existsb is_http_call (run_trace Worlds.bob_created) = false
  /\ token (run_session Worlds.bob_created) = VNone.
Proof.
  assert (Hin : In (ERun cmd_gh_auth_status (Some 5)
                      (Worlds.exited 0 "" ""))
                  (run_trace Worlds.bob_created))
    by (vm_compute; in_list).
  split; [split; [exact Hin | reflexivity]|].
  exact (authenticated_helper_needs_no_credentials Worlds.bob_created
           {| returncode := 0; stdout := lit ""; stderr := lit "" |}
           Hin eq_refl).
Defined.

Lemma credential_exactly_one_witness :
  reaches_creation Worlds.alice_created = true
  /\ xorb (helper_authenticated (resolve_trace Worlds.alice_created))
          (truthy (token (resolve_session Worlds.alice_created))) = true
  /\ (truthy (token (resolve_session Worlds.alice_created)) = true ->
      truthy (username (resolve_session Worlds.alice_created)) = true).
Proof.
  assert (H : reaches_creation Worlds.alice_created = true)
    by (vm_compute; reflexivity).
  split; [exact H|].
  exact (credential_exactly_one Worlds.alice_created H).
Defined.

Lemma api_error_reports_status_witness :
  (In (EPost url_user_repos (api_headers (VStr (lit "abc123")))
         (repo_data (lit "demo") (lit "1.0") false) 30
         (Worlds.responded 422
            [(lit "message", VStr (lit "Repository creation failed."))]))
     (run_trace Worlds.alice_rejected)
   /\ 422 <> 201)
  /\ run_result Worlds.alice_rejected = Ok false
  /\ exists error,
      In (EPrint (MCreateFailed error)) (run_trace Worlds.alice_rejected)
      /\ contains error (of_Z 422)
      /\ error
         = txt_create_failed ++ of_Z 422 ++ lit "): "
           ++ lit "Repository creation failed.".
Proof.
  assert (Hin : In (EPost url_user_repos
                      (api_headers (VStr (lit "abc123")))
                      (repo_data (lit "demo") (lit "1.0") false) 30
                      (Worlds.responded 422
                         [(lit "message",
                           VStr (lit "Repository creation failed."))]))
                  (run_trace Worlds.alice_rejected))
    by (vm_compute; in_list).
  assert (Hs : 422 <> 201) by lia.
  split; [split; assumption|].
  exact (api_error_reports_status Worlds.alice_rejected _ _ _
           {| status_code := 422;
              json_result :=
                Ok (JObject [(lit "message",
                              VStr (lit "Repository creation failed."))]) |}
           _ Hin Hs eq_refl).
Defined.
